(** * Compliance framework: rule evaluation, policy aggregation, policy
    registry and bounded audit log.

    A shallow embedding of the TypeScript sources
    - [src/types/index.ts]                (data model)
    - [src/validators/rule-validator.ts]  ([RuleValidator])
    - [src/validators/policy-validator.ts] ([PolicyValidator])
    - [src/parsers/policy-parser.ts]      ([PolicyParser])
    - [src/services/audit-logger.ts]      ([AuditLogger])
    - [src/services/compliance-service.ts] ([ComplianceService])

    JavaScript values are a tagged tree of plain data; numbers are
    IEEE-754 doubles (primitive floats); exceptions are an explicit
    [Throw] outcome; the mutable fields of the service objects and the
    readings of the host clock are threaded as explicit state. *)

From Stdlib Require Import ZArith Lia List String Ascii Bool DecimalString.
From Stdlib Require Import Floats.PrimFloat Floats.FloatOps Floats.SpecFloat.
From Stdlib Require Import Numbers.Cyclic.Int63.Uint63.
From stdpp Require Import gmap strings list fin_maps.

#[local] Set Warnings "-register-all".

Local Open Scope string_scope.
Local Open Scope bool_scope.
Local Open Scope list_scope.

(* ================================================================== *)
(** * JavaScript values *)
(* ================================================================== *)

(** The double quote character, used inside message templates. *)
Definition dq : string := String (ascii_of_nat 34) EmptyString.

(** Decimal rendering of integers, as template literals print them. *)
Definition string_of_nat (n : nat) : string :=
  NilEmpty.string_of_uint (Nat.to_uint n).

Definition string_of_Z (z : Z) : string :=
  NilEmpty.string_of_int (Z.to_int z).

(** Array lengths and counters stored into a JS [number]. *)
Definition float_of_nat (n : nat) : float :=
  PrimFloat.of_uint63 (Uint63.of_Z (Z.of_nat n)).

(** A [RegExp] object is represented by its source, its flags and its
    matcher [test], taken as a function of the string alone (the
    [lastIndex] cursor of a global or sticky expression is not tracked). *)
Record RegExp := {
  re_source : string;
  re_flags : string;
  re_test : string -> bool
}.

(** The time value of a [Date]: milliseconds since the epoch, or NaN
    ("Invalid Date"). *)
Inductive JsDate :=
| ValidDate (ms : Z)
| InvalidDate.

(** Runtime values.  Objects carry the address they live at: [===] on
    objects is identity, not structure. *)
Inductive Value :=
| JUndefined
| JNull
| JBool (b : bool)
| JNum (n : float)
| JStr (s : string)
| JRegExp (addr : nat) (re : RegExp)
| JDate (addr : nat) (d : JsDate)
| JArray (addr : nat) (elems : list Value)
| JObject (addr : nat) (props : list (string * Value)).

Inductive JsType := TUndefined | TObject | TBoolean | TNumber | TString.

Definition typeof (v : Value) : JsType :=
  match v with
  | JUndefined => TUndefined
  | JNull => TObject
  | JBool _ => TBoolean
  | JNum _ => TNumber
  | JStr _ => TString
  | JRegExp _ _ | JDate _ _ | JArray _ _ | JObject _ _ => TObject
  end.

Definition is_string (v : Value) : bool :=
  match v with JStr _ => true | _ => false end.


Definition is_object_type (v : Value) : bool :=
  match typeof v with TObject => true | _ => false end.

Definition is_null (v : Value) : bool :=
  match v with JNull => true | _ => false end.

Definition is_undefined (v : Value) : bool :=
  match v with JUndefined => true | _ => false end.

Definition isArray (v : Value) : bool :=
  match v with JArray _ _ => true | _ => false end.

Definition address (v : Value) : option nat :=
  match v with
  | JRegExp a _ | JDate a _ | JArray a _ | JObject a _ => Some a
  | _ => None
  end.

(** [a === b]: same type and same value; IEEE equality on numbers
    (NaN differs from itself, the two zeros are equal); identity on
    objects. *)
Definition strict_equals (a b : Value) : bool :=
  match a, b with
  | JUndefined, JUndefined => true
  | JNull, JNull => true
  | JBool x, JBool y => Bool.eqb x y
  | JNum x, JNum y => PrimFloat.eqb x y
  | JStr x, JStr y => String.eqb x y
  | _, _ =>
      match address a, address b with
      | Some p, Some q => Nat.eqb p q
      | _, _ => false
      end
  end.

(** [a ?? b] *)
Definition nullish (a b : Value) : Value :=
  match a with JUndefined | JNull => b | _ => a end.

(** ** Exceptions *)

Inductive JsError :=
| TypeError (msg : string)
| Error (msg : string).

Inductive Outcome (A : Type) :=
| Ok (a : A)
| Throw (e : JsError).
Arguments Ok {A} a.
Arguments Throw {A} e.

Definition obind {A B} (m : Outcome A) (k : A -> Outcome B) : Outcome B :=
  match m with
  | Ok a => k a
  | Throw e => Throw e
  end.

Declare Scope outcome_scope.
Delimit Scope outcome_scope with outcome.
Notation "x <~ m ;; k" := (obind m (fun x => k))
  (at level 100, m at next level, right associativity) : outcome_scope.
Local Open Scope outcome_scope.

(** ** Property access *)

Definition own_property (props : list (string * Value)) (key : string) : Value :=
  match List.find (fun kv => String.eqb (fst kv) key) props with
  | Some kv => snd kv
  | None => JUndefined
  end.

(** A canonical array index: the decimal numeral of a natural number. *)
Definition array_index (key : string) : option nat :=
  match NilEmpty.uint_of_string key with
  | Some u =>
      let i := Nat.of_uint u in
      if String.eqb (string_of_nat i) key then Some i else None
  | None => None
  end.

(** [v[key]].  Reading a property of [null] or [undefined] throws a
    TypeError.  Plain objects answer with their own properties, arrays
    with their elements and [length]; the members inherited from
    prototypes and those of primitive wrappers, RegExp and Date
    instances are outside this model and read as [undefined]. *)
Definition get_property (v : Value) (key : string) : Outcome Value :=
  match v with
  | JUndefined => Throw (TypeError "Cannot read properties of undefined")
  | JNull => Throw (TypeError "Cannot read properties of null")
  | JObject _ props => Ok (own_property props key)
  | JArray _ elems =>
      match array_index key with
      | Some i => Ok (List.nth i elems JUndefined)
      | None =>
          if String.eqb key "length"
          then Ok (JNum (float_of_nat (List.length elems)))
          else Ok JUndefined
      end
  | _ => Ok JUndefined
  end.

(** ** Strings *)

(** [s.includes(sub)]: [sub] occurs in [s]. *)
Fixpoint String_includes (s sub : string) : bool :=
  String.prefix sub s ||
  match s with
  | EmptyString => false
  | String _ rest => String_includes rest sub
  end.

(** [s.split(sep)] for a one-character separator: never empty. *)
Fixpoint String_split (sep : ascii) (s : string) : list string :=
  match s with
  | EmptyString => [EmptyString]
  | String c rest =>
      if Ascii.eqb c sep then EmptyString :: String_split sep rest
      else match String_split sep rest with
           | part :: parts => String c part :: parts
           | [] => [String c EmptyString]
           end
  end.

Definition dot : ascii := ascii_of_nat 46.

(* ================================================================== *)
(** * Data model ([src/types/index.ts]) *)
(* ================================================================== *)

Inductive Severity := Critical | High | Medium | Low.

Definition severity_eqb (a b : Severity) : bool :=
  match a, b with
  | Critical, Critical | High, High | Medium, Medium | Low, Low => true
  | _, _ => false
  end.

Inductive Operator :=
| Equals | NotEquals | Contains | NotContains | GreaterThan | LessThan | Matches.

Module RuleCondition.
Record t := mk {
  field : string;
  operator : Operator;
  value : Value
}.
End RuleCondition.

Module ComplianceRule.
Record t := mk {
  id : string;
  name : string;
  description : string;
  severity : Severity;
  category : string;
  enabled : bool;
  conditions : list RuleCondition.t
}.
End ComplianceRule.

Module CompliancePolicy.
Record t := mk {
  id : string;
  name : string;
  version : string;
  description : string;
  rules : list ComplianceRule.t;
  createdAt : JsDate;
  updatedAt : JsDate
}.
End CompliancePolicy.

Module ValidationResult.
Record t := mk {
  ruleId : string;
  ruleName : string;
  passed : bool;
  severity : Severity;
  message : string;
  details : option (list (string * Value))
}.
End ValidationResult.

Module Summary.
Record t := mk {
  total : Z;
  passed : Z;
  failed : Z;
  criticalFailures : Z;
  highFailures : Z;
  mediumFailures : Z;
  lowFailures : Z
}.
End Summary.

Module ComplianceReport.
Record t := mk {
  policyId : string;
  policyName : string;
  timestamp : JsDate;
  results : list ValidationResult.t;
  summary : Summary.t
}.
End ComplianceReport.

Inductive Action := Validate | Create | Update | Delete.
Inductive ResourceType := Policy | Rule | Report.

Module AuditLogEntry.
Record t := mk {
  id : string;
  timestamp : JsDate;
  action : Action;
  resourceType : ResourceType;
  resourceId : string;
  userId : string;
  details : list (string * Value)
}.
End AuditLogEntry.

Definition action_eqb (a b : Action) : bool :=
  match a, b with
  | Validate, Validate | Create, Create | Update, Update | Delete, Delete => true
  | _, _ => false
  end.


(** [Record<AuditLogEntry['action'], number>] *)
Module ActionCounts.
Record t := mk {
  validate : Z;
  create : Z;
  update : Z;
  delete : Z
}.
End ActionCounts.

(* ================================================================== *)
(** * RuleValidator ([src/validators/rule-validator.ts]) *)
(* ================================================================== *)

Module RuleValidator.

(** The loop of [getFieldValue]: one iteration per path part. *)
Fixpoint walk (value : Value) (parts : list string) : Outcome Value :=
  match parts with
  | [] => Ok value
  | part :: rest =>
      if is_null value || is_undefined value then Ok JUndefined
      else if is_object_type value then
        next <~ get_property value part ;;
        walk next rest
      else Ok JUndefined
  end.

Definition getFieldValue (data : Value) (field : string) : Outcome Value :=
  walk data (String_split dot field).

Definition evaluateCondition (condition : RuleCondition.t) (data : Value)
  : Outcome bool :=
  fieldValue <~ getFieldValue data (RuleCondition.field condition) ;;
  let value := RuleCondition.value condition in
  match RuleCondition.operator condition with
  | Equals => Ok (strict_equals fieldValue value)
  | NotEquals => Ok (negb (strict_equals fieldValue value))
  | Contains =>
      match fieldValue, value with
      | JStr s, JStr sub => Ok (String_includes s sub)
      | _, _ => Ok false
      end
  | NotContains =>
      match fieldValue, value with
      | JStr s, JStr sub => Ok (negb (String_includes s sub))
      | _, _ => Ok true
      end
  | GreaterThan =>
      match fieldValue, value with
      | JNum x, JNum y => Ok (PrimFloat.ltb y x)
      | _, _ => Ok false
      end
  | LessThan =>
      match fieldValue, value with
      | JNum x, JNum y => Ok (PrimFloat.ltb x y)
      | _, _ => Ok false
      end
  | Matches =>
      match fieldValue, value with
      | JStr s, JRegExp _ re => Ok (re_test re s)
      | _, _ => Ok false
      end
  end.

(** [conditions.every(f)]: stops at the first condition that fails. *)
Fixpoint every {A} (f : A -> Outcome bool) (l : list A) : Outcome bool :=
  match l with
  | [] => Ok true
  | x :: rest =>
      b <~ f x ;;
      if b then every f rest else Ok false
  end.

(** [validateRule] with the condition evaluator it dispatches to
    ([this.evaluateCondition]) made explicit. *)
Definition validateRuleWith
    (evaluate : RuleCondition.t -> Value -> Outcome bool)
    (rule : ComplianceRule.t) (data : Value)
  : Outcome ValidationResult.t :=
  if negb (ComplianceRule.enabled rule) then
    Ok {| ValidationResult.ruleId := ComplianceRule.id rule;
          ValidationResult.ruleName := ComplianceRule.name rule;
          ValidationResult.passed := true;
          ValidationResult.severity := ComplianceRule.severity rule;
          ValidationResult.message := "Rule is disabled";
          ValidationResult.details := None |}
  else
    allConditionsPassed <~
      every (fun condition => evaluate condition data)
            (ComplianceRule.conditions rule) ;;
    Ok {| ValidationResult.ruleId := ComplianceRule.id rule;
          ValidationResult.ruleName := ComplianceRule.name rule;
          ValidationResult.passed := allConditionsPassed;
          ValidationResult.severity := ComplianceRule.severity rule;
          ValidationResult.message :=
            if allConditionsPassed
            then "Rule " +:+ dq +:+ ComplianceRule.name rule +:+ dq +:+ " passed"
            else "Rule " +:+ dq +:+ ComplianceRule.name rule +:+ dq +:+ " failed: "
                 +:+ ComplianceRule.description rule;
          ValidationResult.details := None |}.

Definition validateRule (rule : ComplianceRule.t) (data : Value)
  : Outcome ValidationResult.t :=
  validateRuleWith evaluateCondition rule data.

(** The values a condition operand may take by its declared type
    [string | number | boolean | RegExp]. *)
Definition is_condition_value (v : Value) : bool :=
  match v with
  | JStr _ | JNum _ | JBool _ | JRegExp _ _ => true
  | _ => false
  end.

(** A step of the walk that meets [null], [undefined] or a value that is
    not an object. *)
Definition not_indexable (v : Value) : bool :=
  is_null v || is_undefined v || negb (is_object_type v).

(** The pure reading of a condition: what [evaluateCondition] returns. *)
Definition holds (data : Value) (condition : RuleCondition.t) : bool :=
  match evaluateCondition condition data with
  | Ok b => b
  | Throw _ => false
  end.

(** The result record [validateRule] returns. *)
Definition result_of (rule : ComplianceRule.t) (data : Value) : ValidationResult.t :=
  match validateRule rule data with
  | Ok r => r
  | Throw _ =>
      {| ValidationResult.ruleId := EmptyString;
         ValidationResult.ruleName := EmptyString;
         ValidationResult.passed := false;
         ValidationResult.severity := Medium;
         ValidationResult.message := EmptyString;
         ValidationResult.details := None |}
  end.

(** The record an early return of [validateRule] carries for a disabled
    rule. *)
Definition disabled_result (rule : ComplianceRule.t) : ValidationResult.t :=
  {| ValidationResult.ruleId := ComplianceRule.id rule;
     ValidationResult.ruleName := ComplianceRule.name rule;
     ValidationResult.passed := true;
     ValidationResult.severity := ComplianceRule.severity rule;
     ValidationResult.message := "Rule is disabled";
     ValidationResult.details := None |}.



End RuleValidator.

(* ================================================================== *)
(** * The host and the mutable state *)
(* ================================================================== *)

(** What the JavaScript host supplies and the sources only consume: the
    system clock (its successive readings, in milliseconds), the random
    suffix drawn for audit ids, and the conversions of the [Number] and
    [Date] built-ins. *)
Record Host := {
  clock : nat -> Z;
  random36 : nat -> string;
  Number_toString : float -> string;
  Date_toString : JsDate -> string;
  Date_parse : string -> JsDate
}.

(** The state of one [ComplianceService] with its [AuditLogger]
    ([logs], [maxLogSize], [policies] are the private fields of the two
    classes), together with the number of clock readings and random
    draws consumed so far.  [maxLogSize] is an integral capacity.  The
    policy [Map] is read and written by key only in the methods embedded
    here, so it is a finite map; its iteration order is not represented. *)
Record State := {
  clock_reads : nat;
  random_draws : nat;
  logs : list AuditLogEntry.t;
  maxLogSize : Z;
  policies : gmap string CompliancePolicy.t
}.

Definition with_clock_reads (n : nat) (st : State) : State :=
  {| clock_reads := n; random_draws := random_draws st; logs := logs st;
     maxLogSize := maxLogSize st; policies := policies st |}.

Definition with_random_draws (n : nat) (st : State) : State :=
  {| clock_reads := clock_reads st; random_draws := n; logs := logs st;
     maxLogSize := maxLogSize st; policies := policies st |}.

Definition with_logs (l : list AuditLogEntry.t) (st : State) : State :=
  {| clock_reads := clock_reads st; random_draws := random_draws st; logs := l;
     maxLogSize := maxLogSize st; policies := policies st |}.

Definition with_policies (m : gmap string CompliancePolicy.t) (st : State) : State :=
  {| clock_reads := clock_reads st; random_draws := random_draws st;
     logs := logs st; maxLogSize := maxLogSize st; policies := m |}.

(** [new ComplianceService(new AuditLogger(maxLogSize))] on a fresh host. *)
Definition initial (maxLogSize : Z) : State :=
  {| clock_reads := 0; random_draws := 0; logs := [];
     maxLogSize := maxLogSize; policies := ∅ |}.

(** A method call: it runs from a state, returns or throws, and leaves a
    state behind in both cases. *)
Definition M (A : Type) : Type := State -> Outcome A * State.

Definition pure {A} (a : A) : M A := fun st => (Ok a, st).

Definition throw {A} (e : JsError) : M A := fun st => (Throw e, st).

Definition bindM {A B} (m : M A) (k : A -> M B) : M B :=
  fun st =>
    match m st with
    | (Ok a, st') => k a st'
    | (Throw e, st') => (Throw e, st')
    end.

Definition lift {A} (o : Outcome A) : M A := fun st => (o, st).

Definition get_state : M State := fun st => (Ok st, st).

Definition modify (f : State -> State) : M unit := fun st => (Ok tt, f st).

Declare Scope method_scope.
Delimit Scope method_scope with method.
Notation "x <- m ;; k" := (bindM m (fun x => k))
  (at level 100, m at next level, right associativity) : method_scope.
Local Open Scope method_scope.

(** [items.map(f)] where [f] may throw: the first exception aborts. *)
Fixpoint mapO {A B} (f : A -> Outcome B) (l : list A) : Outcome (list B) :=
  match l with
  | [] => Ok []
  | x :: rest =>
      y <~ f x ;;
      ys <~ mapO f rest ;;
      Ok (y :: ys)
  end.

(** [items.map((item, index) => f(item, index))], counting from [index]. *)
Fixpoint mapiO {A B} (f : A -> nat -> Outcome B) (index : nat) (l : list A)
  : Outcome (list B) :=
  match l with
  | [] => Ok []
  | x :: rest =>
      y <~ f x index ;;
      ys <~ mapiO f (S index) rest ;;
      Ok (y :: ys)
  end.





(** [array.slice(start)] for an integral [start]: a negative [start]
    counts from the end. *)
Definition slice {A} (start : Z) (l : list A) : list A :=
  let len := Z.of_nat (List.length l) in
  let k := if (start <? 0)%Z then Z.max (len + start) 0 else Z.min start len in
  List.skipn (Z.to_nat k) l.

(** The integral part of a finite number (truncation toward zero). *)
Definition integer_part (n : float) : option Z :=
  match Prim2SF n with
  | S754_zero _ => Some 0%Z
  | S754_finite s m e =>
      let magnitude :=
        if (0 <=? e)%Z then (Z.pos m * 2 ^ e)%Z else (Z.pos m / 2 ^ (- e))%Z in
      Some (if s then (- magnitude)%Z else magnitude)
  | S754_infinity _ | S754_nan => None
  end.

(** [new Date(n)] for a number [n]: the time value is clipped to
    +-8.64e15 ms and truncated. *)
Definition Date_of_number (n : float) : JsDate :=
  match integer_part n with
  | Some t => if (Z.abs t <=? 8640000000000000)%Z then ValidDate t else InvalidDate
  | None => InvalidDate
  end.

(** [a.getTime() <= b.getTime()]: false as soon as one side is NaN. *)
Definition date_leb (a b : JsDate) : bool :=
  match a, b with
  | ValidDate x, ValidDate y => (x <=? y)%Z
  | _, _ => false
  end.

(** The last [n] elements of a list, in order. *)
Definition lastn {A} (n : nat) (l : list A) : list A :=
  List.skipn (List.length l - n) l.

(** [v[key]] where it cannot throw; [undefined] stands for the rest. *)
Definition property (v : Value) (key : string) : Value :=
  match get_property v key with
  | Ok x => x
  | Throw _ => JUndefined
  end.

Section WithHost.

Variable host : Host.

(** [new Date()] *)
Definition new_Date : M JsDate :=
  fun st =>
    (Ok (ValidDate (clock host (clock_reads st))),
     with_clock_reads (S (clock_reads st)) st).

(** [Date.now()] *)
Definition Date_now : M Z :=
  fun st =>
    (Ok (clock host (clock_reads st)), with_clock_reads (S (clock_reads st)) st).

(** [Math.random().toString(36).substring(2, 9)] *)
Definition Math_random36 : M string :=
  fun st =>
    (Ok (random36 host (random_draws st)),
     with_random_draws (S (random_draws st)) st).

(** [String(v)] on plain data. *)
Fixpoint js_String (v : Value) : string :=
  match v with
  | JUndefined => "undefined"
  | JNull => "null"
  | JBool true => "true"
  | JBool false => "false"
  | JNum n => Number_toString host n
  | JStr s => s
  | JRegExp _ re => "/" +:+ re_source re +:+ "/" +:+ re_flags re
  | JDate _ d => Date_toString host d
  | JArray _ elems =>
      String.concat ","
        (List.map (fun e => match e with
                            | JUndefined | JNull => EmptyString
                            | _ => js_String e
                            end) elems)
  | JObject _ _ => "[object Object]"
  end.

End WithHost.

(* ================================================================== *)
(** * PolicyValidator ([src/validators/policy-validator.ts]) *)
(* ================================================================== *)

Module PolicyValidator.

Definition calculateSummary (results : list ValidationResult.t) : Summary.t :=
  let failed := List.filter (fun r => negb (ValidationResult.passed r)) results in
  {| Summary.total := Z.of_nat (List.length results);
     Summary.passed :=
       Z.of_nat (List.length (List.filter (fun r => ValidationResult.passed r) results));
     Summary.failed := Z.of_nat (List.length failed);
     Summary.criticalFailures :=
       Z.of_nat (List.length
         (List.filter (fun r => severity_eqb (ValidationResult.severity r) Critical) failed));
     Summary.highFailures :=
       Z.of_nat (List.length
         (List.filter (fun r => severity_eqb (ValidationResult.severity r) High) failed));
     Summary.mediumFailures :=
       Z.of_nat (List.length
         (List.filter (fun r => severity_eqb (ValidationResult.severity r) Medium) failed));
     Summary.lowFailures :=
       Z.of_nat (List.length
         (List.filter (fun r => severity_eqb (ValidationResult.severity r) Low) failed)) |}.

Definition isPolicyPassing (report : ComplianceReport.t) : bool :=
  (Summary.criticalFailures (ComplianceReport.summary report) =? 0)%Z
  && (Summary.highFailures (ComplianceReport.summary report) =? 0)%Z.

Definition getFailedRules (report : ComplianceReport.t) : list ValidationResult.t :=
  List.filter (fun result => negb (ValidationResult.passed result))
              (ComplianceReport.results report).

(** How many results failed with a given severity. *)
Definition count_failed (sev : Severity) (results : list ValidationResult.t) : Z :=
  Z.of_nat (List.length
    (List.filter (fun r => negb (ValidationResult.passed r)
                           && severity_eqb (ValidationResult.severity r) sev)
                 results)).

(** A report whose medium and low failure counters are replaced. *)
Definition with_medium_low (medium low : Z) (report : ComplianceReport.t)
  : ComplianceReport.t :=
  let s := ComplianceReport.summary report in
  {| ComplianceReport.policyId := ComplianceReport.policyId report;
     ComplianceReport.policyName := ComplianceReport.policyName report;
     ComplianceReport.timestamp := ComplianceReport.timestamp report;
     ComplianceReport.results := ComplianceReport.results report;
     ComplianceReport.summary :=
       {| Summary.total := Summary.total s;
          Summary.passed := Summary.passed s;
          Summary.failed := Summary.failed s;
          Summary.criticalFailures := Summary.criticalFailures s;
          Summary.highFailures := Summary.highFailures s;
          Summary.mediumFailures := medium;
          Summary.lowFailures := low |} |}.


Section WithHost.

Variable host : Host.

Definition validatePolicy (policy : CompliancePolicy.t) (data : Value)
  : M ComplianceReport.t :=
  results <- lift (mapO (fun rule => RuleValidator.validateRule rule data)
                        (CompliancePolicy.rules policy)) ;;
  let summary := calculateSummary results in
  timestamp <- new_Date host ;;
  pure {| ComplianceReport.policyId := CompliancePolicy.id policy;
          ComplianceReport.policyName := CompliancePolicy.name policy;
          ComplianceReport.timestamp := timestamp;
          ComplianceReport.results := results;
          ComplianceReport.summary := summary |}.

End WithHost.

End PolicyValidator.

(* ================================================================== *)
(** * PolicyParser ([src/parsers/policy-parser.ts]) *)
(* ================================================================== *)

Module PolicyParser.

Definition isValidPolicyInput (input : Value) : Outcome bool :=
  if negb (is_object_type input) || is_null input then Ok false
  else
    id <~ get_property input "id" ;;
    if negb (is_string id) then Ok false
    else
      name <~ get_property input "name" ;;
      if negb (is_string name) then Ok false
      else
        rules <~ get_property input "rules" ;;
        Ok (isArray rules).

Definition parseSeverity (input : Value) : Severity :=
  match input with
  | JStr s =>
      if String.eqb s "critical" then Critical
      else if String.eqb s "high" then High
      else if String.eqb s "medium" then Medium
      else if String.eqb s "low" then Low
      else Medium
  | _ => Medium
  end.

Definition operator_of_string (s : string) : option Operator :=
  if String.eqb s "equals" then Some Equals
  else if String.eqb s "notEquals" then Some NotEquals
  else if String.eqb s "contains" then Some Contains
  else if String.eqb s "notContains" then Some NotContains
  else if String.eqb s "greaterThan" then Some GreaterThan
  else if String.eqb s "lessThan" then Some LessThan
  else if String.eqb s "matches" then Some Matches
  else None.


Definition operator_name (op : Operator) : string :=
  match op with
  | Equals => "equals"
  | NotEquals => "notEquals"
  | Contains => "contains"
  | NotContains => "notContains"
  | GreaterThan => "greaterThan"
  | LessThan => "lessThan"
  | Matches => "matches"
  end.

(** A value that is an object and not [null]. *)
Definition is_object (v : Value) : bool :=
  is_object_type v && negb (is_null v).

(** An item [parseRule] accepts: an object with a string id and name. *)
Definition rule_shape (input : Value) : bool :=
  is_object input && is_string (property input "id")
  && is_string (property input "name").

(** An input [parsePolicy] does not reject at once: an object with a
    string id, a string name and an array of rules. *)
Definition policy_shape (input : Value) : bool :=
  is_object input && is_string (property input "id")
  && is_string (property input "name") && isArray (property input "rules").

(** The elements of an array; nothing for any other value. *)
Definition items_of (v : Value) : list Value :=
  match v with
  | JArray _ items => items
  | _ => []
  end.

(** An input [parsePolicy] accepts: of policy shape, with every element
    of its rules array of rule shape. *)
Definition accepts (input : Value) : bool :=
  policy_shape input && List.forallb rule_shape (items_of (property input "rules")).

(** The content of a string value. *)
Definition string_of (v : Value) : string :=
  match v with
  | JStr s => s
  | _ => EmptyString
  end.

(** A date taken from the input when there is one, else the clock
    reading number [n]. *)
Definition date_at (clock : nat -> Z) (parsed : option JsDate) (n : nat) : JsDate :=
  match parsed with
  | Some d => d
  | None => ValidDate (clock n)
  end.

(** How many clock readings a date costs. *)
Definition reads_for (parsed : option JsDate) : nat :=
  match parsed with
  | Some _ => 0
  | None => 1
  end.

Section WithHost.

Variable host : Host.

Definition parseCondition (input : Value) : Outcome RuleCondition.t :=
  op <~ get_property input "operator" ;;
  let operator :=
    match op with
    | JStr s => match operator_of_string s with Some o => o | None => Equals end
    | _ => Equals
    end in
  field <~ get_property input "field" ;;
  value <~ get_property input "value" ;;
  Ok {| RuleCondition.field := js_String host (nullish field (JStr EmptyString));
        RuleCondition.operator := operator;
        RuleCondition.value := value |}.

Definition parseConditions (input : Value) : Outcome (list RuleCondition.t) :=
  match input with
  | JArray _ items =>
      mapO parseCondition
           (List.filter (fun item => is_object_type item && negb (is_null item)) items)
  | _ => Ok []
  end.

Definition parseRule (input : Value) (index : nat) : Outcome ComplianceRule.t :=
  if negb (is_object_type input) || is_null input then
    Throw (Error ("Invalid rule at index " +:+ string_of_nat index
                  +:+ ": expected an object"))
  else
    id <~ get_property input "id" ;;
    name <~ get_property input "name" ;;
    match id, name with
    | JStr id, JStr name =>
        description <~ get_property input "description" ;;
        severity <~ get_property input "severity" ;;
        category <~ get_property input "category" ;;
        enabled <~ get_property input "enabled" ;;
        conditions <~ get_property input "conditions" ;;
        conditions <~ parseConditions conditions ;;
        Ok {| ComplianceRule.id := id;
              ComplianceRule.name := name;
              ComplianceRule.description :=
                js_String host (nullish description (JStr EmptyString));
              ComplianceRule.severity := parseSeverity severity;
              ComplianceRule.category :=
                js_String host (nullish category (JStr "general"));
              ComplianceRule.enabled := negb (strict_equals enabled (JBool false));
              ComplianceRule.conditions := conditions |}
    | _, _ =>
        Throw (Error ("Invalid rule at index " +:+ string_of_nat index
                      +:+ ": missing id or name"))
    end.

Definition parseRules (input : Value) : Outcome (list ComplianceRule.t) :=
  match input with
  | JArray _ items => mapiO parseRule 0 items
  | _ => Ok []
  end.

Definition parseDate (input : Value) : option JsDate :=
  match input with
  | JDate _ d => Some d
  | JStr s =>
      match Date_parse host s with
      | InvalidDate => None
      | ValidDate t => Some (ValidDate t)
      end
  | JNum n =>
      match Date_of_number n with
      | InvalidDate => None
      | ValidDate t => Some (ValidDate t)
      end
  | _ => None
  end.

(** [parseDate(x) ?? new Date()]: the clock is read only when needed. *)
Definition date_or_now (parsed : option JsDate) : M JsDate :=
  match parsed with
  | Some d => pure d
  | None => new_Date host
  end.

Definition parsePolicy (input : Value) : M CompliancePolicy.t :=
  valid <- lift (isValidPolicyInput input) ;;
  if negb valid then
    throw (Error "Invalid policy format: missing required fields")
  else
    id <- lift (get_property input "id") ;;
    name <- lift (get_property input "name") ;;
    version <- lift (get_property input "version") ;;
    description <- lift (get_property input "description") ;;
    rules <- lift (get_property input "rules") ;;
    rules <- lift (parseRules rules) ;;
    created <- lift (get_property input "createdAt") ;;
    createdAt <- date_or_now (parseDate created) ;;
    updated <- lift (get_property input "updatedAt") ;;
    updatedAt <- date_or_now (parseDate updated) ;;
    pure {| CompliancePolicy.id := js_String host id;
            CompliancePolicy.name := js_String host name;
            CompliancePolicy.version :=
              js_String host (nullish version (JStr "1.0.0"));
            CompliancePolicy.description :=
              js_String host (nullish description (JStr EmptyString));
            CompliancePolicy.rules := rules;
            CompliancePolicy.createdAt := createdAt;
            CompliancePolicy.updatedAt := updatedAt |}.


End WithHost.

End PolicyParser.

(* ================================================================== *)
(** * AuditLogger ([src/services/audit-logger.ts]) *)
(* ================================================================== *)

Module AuditLogger.

(** [this.logs.push(entry)] *)
Definition push (entry : AuditLogEntry.t) : M unit :=
  modify (fun st => with_logs (logs st ++ [entry]) st).

Definition trimLogs : M unit :=
  fun st =>
    if (Z.of_nat (List.length (logs st)) >? maxLogSize st)%Z
    then (Ok tt, with_logs (slice (- maxLogSize st) (logs st)) st)
    else (Ok tt, st).


(** What [trimLogs] leaves of a list under capacity [maxLogSize]. *)
Definition trimmed {A} (maxLogSize : Z) (l : list A) : list A :=
  if (Z.of_nat (List.length l) >? maxLogSize)%Z then slice (- maxLogSize) l else l.

(** The arguments of one call of [log]. *)
Record LogCall := {
  call_action : Action;
  call_resourceType : ResourceType;
  call_resourceId : string;
  call_userId : string;
  call_details : list (string * Value)
}.

Section WithHost.

Variable host : Host.

Definition generateId : M string :=
  now <- Date_now host ;;
  suffix <- Math_random36 host ;;
  pure ("audit_" +:+ string_of_Z now +:+ "_" +:+ suffix).

Definition log (action : Action) (resourceType : ResourceType)
    (resourceId userId : string) (details : list (string * Value))
  : M AuditLogEntry.t :=
  id <- generateId ;;
  timestamp <- new_Date host ;;
  let entry :=
    {| AuditLogEntry.id := id;
       AuditLogEntry.timestamp := timestamp;
       AuditLogEntry.action := action;
       AuditLogEntry.resourceType := resourceType;
       AuditLogEntry.resourceId := resourceId;
       AuditLogEntry.userId := userId;
       AuditLogEntry.details := details |} in
  _ <- push entry ;;
  _ <- trimLogs ;;
  pure entry.

(** The entry a call of [log] builds when it starts in state [st]. *)
Definition entry_at (st : State) (call : LogCall) : AuditLogEntry.t :=
  {| AuditLogEntry.id :=
       "audit_" +:+ string_of_Z (clock host (clock_reads st)) +:+ "_"
       +:+ random36 host (random_draws st);
     AuditLogEntry.timestamp := ValidDate (clock host (S (clock_reads st)));
     AuditLogEntry.action := call_action call;
     AuditLogEntry.resourceType := call_resourceType call;
     AuditLogEntry.resourceId := call_resourceId call;
     AuditLogEntry.userId := call_userId call;
     AuditLogEntry.details := call_details call |}.

(** A sequence of calls of [log], one after the other; the entries they
    return, in call order. *)
Fixpoint log_all (calls : list LogCall) : M (list AuditLogEntry.t) :=
  match calls with
  | [] => pure []
  | call :: rest =>
      entry <- log (call_action call) (call_resourceType call)
                   (call_resourceId call) (call_userId call) (call_details call) ;;
      entries <- log_all rest ;;
      pure (entry :: entries)
  end.

End WithHost.

(** [getLogs(startDate?, endDate?)]: an omitted bound is [None].  A
    [Date] bound is always truthy; dates compare by time value. *)
Definition getLogs (startDate endDate : option JsDate) (st : State)
  : list AuditLogEntry.t :=
  let filtered := logs st in
  let filtered :=
    match startDate with
    | Some startDate =>
        List.filter (fun log => date_leb startDate (AuditLogEntry.timestamp log))
                    filtered
    | None => filtered
    end in
  let filtered :=
    match endDate with
    | Some endDate =>
        List.filter (fun log => date_leb (AuditLogEntry.timestamp log) endDate)
                    filtered
    | None => filtered
    end in
  filtered.



(** [counts[action]++] *)
Definition increment (action : Action) (counts : ActionCounts.t) : ActionCounts.t :=
  match action with
  | Validate =>
      {| ActionCounts.validate := ActionCounts.validate counts + 1;
         ActionCounts.create := ActionCounts.create counts;
         ActionCounts.update := ActionCounts.update counts;
         ActionCounts.delete := ActionCounts.delete counts |}
  | Create =>
      {| ActionCounts.validate := ActionCounts.validate counts;
         ActionCounts.create := ActionCounts.create counts + 1;
         ActionCounts.update := ActionCounts.update counts;
         ActionCounts.delete := ActionCounts.delete counts |}
  | Update =>
      {| ActionCounts.validate := ActionCounts.validate counts;
         ActionCounts.create := ActionCounts.create counts;
         ActionCounts.update := ActionCounts.update counts + 1;
         ActionCounts.delete := ActionCounts.delete counts |}
  | Delete =>
      {| ActionCounts.validate := ActionCounts.validate counts;
         ActionCounts.create := ActionCounts.create counts;
         ActionCounts.update := ActionCounts.update counts;
         ActionCounts.delete := ActionCounts.delete counts + 1 |}
  end%Z.

Definition getActionCounts (st : State) : ActionCounts.t :=
  List.fold_left (fun counts log => increment (AuditLogEntry.action log) counts)
                 (logs st)
                 {| ActionCounts.validate := 0; ActionCounts.create := 0;
                    ActionCounts.update := 0; ActionCounts.delete := 0 |}.

(** How many stored entries record a given action. *)
Definition count_action (action : Action) (entries : list AuditLogEntry.t) : Z :=
  Z.of_nat (List.length
    (List.filter (fun log => action_eqb (AuditLogEntry.action log) action) entries)).

End AuditLogger.

(* ================================================================== *)
(** * ComplianceService ([src/services/compliance-service.ts]) *)
(* ================================================================== *)

Module ComplianceService.

(** [this.policies.has(id)] *)
Definition has (id : string) (st : State) : bool :=
  match policies st !! id with Some _ => true | None => false end.

(** [getPolicy(id)] *)
Definition getPolicy (id : string) (st : State) : option CompliancePolicy.t :=
  policies st !! id.

Definition with_id (id : string) (p : CompliancePolicy.t) : CompliancePolicy.t :=
  {| CompliancePolicy.id := id;
     CompliancePolicy.name := CompliancePolicy.name p;
     CompliancePolicy.version := CompliancePolicy.version p;
     CompliancePolicy.description := CompliancePolicy.description p;
     CompliancePolicy.rules := CompliancePolicy.rules p;
     CompliancePolicy.createdAt := CompliancePolicy.createdAt p;
     CompliancePolicy.updatedAt := CompliancePolicy.updatedAt p |}.

Definition with_updatedAt (d : JsDate) (p : CompliancePolicy.t) : CompliancePolicy.t :=
  {| CompliancePolicy.id := CompliancePolicy.id p;
     CompliancePolicy.name := CompliancePolicy.name p;
     CompliancePolicy.version := CompliancePolicy.version p;
     CompliancePolicy.description := CompliancePolicy.description p;
     CompliancePolicy.rules := CompliancePolicy.rules p;
     CompliancePolicy.createdAt := CompliancePolicy.createdAt p;
     CompliancePolicy.updatedAt := d |}.

Definition policy_details (policy : CompliancePolicy.t) : list (string * Value) :=
  [("policyName", JStr (CompliancePolicy.name policy));
   ("ruleCount", JNum (float_of_nat (List.length (CompliancePolicy.rules policy))))].

(** Every stored policy sits under its own id. *)
Definition well_keyed (st : State) : Prop :=
  forall (id : string) (policy : CompliancePolicy.t),
    policies st !! id = Some policy -> CompliancePolicy.id policy = id.


Section WithHost.

Variable host : Host.

Definition registerPolicy (policyInput : Value) (userId : string)
  : M CompliancePolicy.t :=
  policy <- PolicyParser.parsePolicy host policyInput ;;
  st <- get_state ;;
  if has (CompliancePolicy.id policy) st then
    throw (Error ("Policy with ID " +:+ dq +:+ CompliancePolicy.id policy +:+ dq
                  +:+ " already exists"))
  else
    _ <- modify (fun st =>
           with_policies (<[CompliancePolicy.id policy := policy]> (policies st)) st) ;;
    _ <- AuditLogger.log host Create Policy (CompliancePolicy.id policy) userId
           (policy_details policy) ;;
    pure policy.

Definition updatePolicy (policyId : string) (policyInput : Value) (userId : string)
  : M CompliancePolicy.t :=
  st <- get_state ;;
  if negb (has policyId st) then
    throw (Error ("Policy with ID " +:+ dq +:+ policyId +:+ dq +:+ " not found"))
  else
    policy <- PolicyParser.parsePolicy host policyInput ;;
    let policy := with_id policyId policy in
    now <- new_Date host ;;
    let policy := with_updatedAt now policy in
    _ <- modify (fun st => with_policies (<[policyId := policy]> (policies st)) st) ;;
    _ <- AuditLogger.log host Update Policy policyId userId (policy_details policy) ;;
    pure policy.

Definition deletePolicy (policyId : string) (userId : string) : M bool :=
  st <- get_state ;;
  if negb (has policyId st) then pure false
  else
    _ <- modify (fun st => with_policies (delete policyId (policies st)) st) ;;
    _ <- AuditLogger.log host Delete Policy policyId userId [] ;;
    pure true.

Definition validate (policyId : string) (data : Value) (userId : string)
  : M ComplianceReport.t :=
  st <- get_state ;;
  match getPolicy policyId st with
  | None =>
      throw (Error ("Policy with ID " +:+ dq +:+ policyId +:+ dq +:+ " not found"))
  | Some policy =>
      report <- PolicyValidator.validatePolicy host policy data ;;
      _ <- AuditLogger.log host Validate Policy policyId userId
             [("passed", JBool (PolicyValidator.isPolicyPassing report));
              ("totalRules",
               JNum (PrimFloat.of_uint63
                       (Uint63.of_Z (Summary.total (ComplianceReport.summary report)))));
              ("failedRules",
               JNum (PrimFloat.of_uint63
                       (Uint63.of_Z (Summary.failed (ComplianceReport.summary report)))))] ;;
      pure report
  end.



(** One call of a state-changing or validating method, and what a
    sequence of such calls leaves behind, whatever each call returns or
    throws. *)
Inductive Call :=
| CallRegister (policyInput : Value) (userId : string)
| CallUpdate (policyId : string) (policyInput : Value) (userId : string)
| CallDelete (policyId userId : string)
| CallValidate (policyId : string) (data : Value) (userId : string).

Definition perform (call : Call) (st : State) : State :=
  match call with
  | CallRegister policyInput userId => snd (registerPolicy policyInput userId st)
  | CallUpdate policyId policyInput userId =>
      snd (updatePolicy policyId policyInput userId st)
  | CallDelete policyId userId => snd (deletePolicy policyId userId st)
  | CallValidate policyId data userId => snd (validate policyId data userId st)
  end.

Definition perform_all (calls : list Call) (st : State) : State :=
  List.fold_left (fun st call => perform call st) calls st.

End WithHost.

End ComplianceService.

(* ================================================================== *)
(** * Concrete inputs used by the examples below *)
(* ================================================================== *)

Module Samples.

(** The record [{ user: {} }]. *)
Definition user_without_profile : Value :=
  JObject 1 [("user", JObject 2 [])].

(** The record [{ user: { profile: { role: "admin" } } }]. *)
Definition admin_record : Value :=
  JObject 1 [("user", JObject 2 [("profile", JObject 3 [("role", JStr "admin")])])].

(** An enabled rule with two conditions on [admin_record]. *)
Definition admin_rule : ComplianceRule.t :=
  {| ComplianceRule.id := "r-admin";
     ComplianceRule.name := "Admin only";
     ComplianceRule.description := "role must be admin";
     ComplianceRule.severity := High;
     ComplianceRule.category := "access";
     ComplianceRule.enabled := true;
     ComplianceRule.conditions :=
       [{| RuleCondition.field := "user.profile.role";
           RuleCondition.operator := Equals;
           RuleCondition.value := JStr "admin" |};
        {| RuleCondition.field := "user.profile.role";
           RuleCondition.operator := NotContains;
           RuleCondition.value := JStr "guest" |}] |}.

(** The record [{ count: 50 }]. *)
Definition count_record : Value :=
  JObject 1 [("count", JNum (float_of_nat 50))].

(** The record [{ password: "mypassword123" }]. *)
Definition password_record : Value :=
  JObject 1 [("password", JStr "mypassword123")].

Definition role_equals (operand : Value) : RuleCondition.t :=
  {| RuleCondition.field := "user.profile.role";
     RuleCondition.operator := Equals;
     RuleCondition.value := operand |}.

(** A disabled rule whose only condition cannot hold on [count_record]. *)
Definition disabled_rule : ComplianceRule.t :=
  {| ComplianceRule.id := "r-off";
     ComplianceRule.name := "Switched off";
     ComplianceRule.description := "never evaluated";
     ComplianceRule.severity := Critical;
     ComplianceRule.category := "general";
     ComplianceRule.enabled := false;
     ComplianceRule.conditions :=
       [{| RuleCondition.field := "count";
           RuleCondition.operator := Equals;
           RuleCondition.value := JStr "fifty" |}] |}.

(** A policy with [admin_rule] and [disabled_rule]. *)
Definition admin_policy : CompliancePolicy.t :=
  {| CompliancePolicy.id := "p-admin";
     CompliancePolicy.name := "Admin policy";
     CompliancePolicy.version := "1.0.0";
     CompliancePolicy.description := EmptyString;
     CompliancePolicy.rules := [admin_rule; disabled_rule];
     CompliancePolicy.createdAt := ValidDate 0;
     CompliancePolicy.updatedAt := ValidDate 0 |}.

(** A report with two medium and three low failures and nothing worse. *)
Definition medium_low_report : ComplianceReport.t :=
  {| ComplianceReport.policyId := "p1";
     ComplianceReport.policyName := "Security Policy";
     ComplianceReport.timestamp := ValidDate 0;
     ComplianceReport.results := [];
     ComplianceReport.summary :=
       {| Summary.total := 9; Summary.passed := 4; Summary.failed := 5;
          Summary.criticalFailures := 0; Summary.highFailures := 0;
          Summary.mediumFailures := 2; Summary.lowFailures := 3 |} |}.

(** A host whose clock starts on 2023-11-14 and advances by one
    millisecond per reading.  The sample inputs below hold no number and
    no date string to convert, so the three conversions are never
    consulted. *)
Definition host : Host :=
  {| clock := fun k => (1700000000000 + Z.of_nat k)%Z;
     random36 := fun _ => "k3x9q2a";
     Number_toString := fun _ => "0";
     Date_toString := fun _ => "Invalid Date";
     Date_parse := fun _ => InvalidDate |}.

(** [{id: "p1", name: "Security Policy", rules: [],
      createdAt: new Date(1704067200000), updatedAt: new Date(1893456000000)}]:
    created on 2024-01-01, stamped as updated on 2030-01-01. *)
Definition policy_v1 : Value :=
  JObject 10 [("id", JStr "p1"); ("name", JStr "Security Policy");
              ("rules", JArray 11 []);
              ("createdAt", JDate 12 (ValidDate 1704067200000));
              ("updatedAt", JDate 13 (ValidDate 1893456000000))].

(** [{id: "other", name: "Updated Security Policy", rules: [],
      createdAt: new Date(1706745600000)}]: created on 2024-02-01. *)
Definition policy_v2 : Value :=
  JObject 20 [("id", JStr "other"); ("name", JStr "Updated Security Policy");
              ("rules", JArray 21 []);
              ("createdAt", JDate 22 (ValidDate 1706745600000))].

(** The service after [registerPolicy(policy_v1, "user-1")]. *)
Definition registered : State :=
  snd (ComplianceService.registerPolicy host policy_v1 "user-1" (initial 10000)).

(** The record stored for "p1" after that registration. *)
Definition registered_policy : CompliancePolicy.t :=
  {| CompliancePolicy.id := "p1";
     CompliancePolicy.name := "Security Policy";
     CompliancePolicy.version := "1.0.0";
     CompliancePolicy.description := EmptyString;
     CompliancePolicy.rules := [];
     CompliancePolicy.createdAt := ValidDate 1704067200000;
     CompliancePolicy.updatedAt := ValidDate 1893456000000 |}.

(** [updatePolicy("p1", policy_v2, "user-2")] on the registered service. *)
Definition updated : Outcome CompliancePolicy.t * State :=
  ComplianceService.updatePolicy host "p1" policy_v2 "user-2" registered.

(** The record that update returns and stores. *)
Definition updated_policy : CompliancePolicy.t :=
  {| CompliancePolicy.id := "p1";
     CompliancePolicy.name := "Updated Security Policy";
     CompliancePolicy.version := "1.0.0";
     CompliancePolicy.description := EmptyString;
     CompliancePolicy.rules := [];
     CompliancePolicy.createdAt := ValidDate 1706745600000;
     CompliancePolicy.updatedAt := ValidDate 1700000000003 |}.

(** [{id: "p1", name: "Status policy", rules: [{id: "r1", name: "Status
    check", severity: "high", conditions: [{field: "status", operator:
    "equals", value: "active"}]}]}] *)
Definition status_policy : Value :=
  JObject 30
    [("id", JStr "p1"); ("name", JStr "Status policy");
     ("rules",
      JArray 31
        [JObject 32
           [("id", JStr "r1"); ("name", JStr "Status check");
            ("severity", JStr "high");
            ("conditions",
             JArray 33
               [JObject 34 [("field", JStr "status");
                            ("operator", JStr "equals");
                            ("value", JStr "active")]])]])].

Definition with_status_policy : State :=
  snd (ComplianceService.registerPolicy host status_policy "user-1" (initial 10000)).

Definition summary_of (run : Outcome ComplianceReport.t * State) : option Summary.t :=
  match fst run with
  | Ok report => Some (ComplianceReport.summary report)
  | Throw _ => None
  end.

Definition create_p1 : AuditLogger.LogCall :=
  {| AuditLogger.call_action := Create;
     AuditLogger.call_resourceType := Policy;
     AuditLogger.call_resourceId := "p1";
     AuditLogger.call_userId := "u1";
     AuditLogger.call_details := [] |}.

Definition create_call (resourceId : string) : AuditLogger.LogCall :=
  {| AuditLogger.call_action := Create;
     AuditLogger.call_resourceType := Policy;
     AuditLogger.call_resourceId := resourceId;
     AuditLogger.call_userId := "u1";
     AuditLogger.call_details := [] |}.

(** Five calls of [log] on a logger of capacity three. *)
Definition five_calls : list AuditLogger.LogCall :=
  [create_call "p1"; create_call "p2"; create_call "p3"; create_call "p4";
   create_call "p5"].




(** [{id: "p1", name: "Security Policy", rules: []}], without dates. *)
Definition policy_v3 : Value :=
  JObject 60 [("id", JStr "p1"); ("name", JStr "Security Policy");
              ("rules", JArray 61 [])].

(** A session: a registration, a duplicate registration, a validation,
    an update with a malformed input, a delete and a second
    registration under the same id. *)
Definition session : list ComplianceService.Call :=
  [ComplianceService.CallRegister policy_v1 "user-1";
   ComplianceService.CallRegister policy_v1 "user-2";
   ComplianceService.CallValidate "p1" admin_record "user-1";
   ComplianceService.CallUpdate "p1" JNull "user-1";
   ComplianceService.CallDelete "p1" "user-1";
   ComplianceService.CallRegister policy_v3 "user-3"].

End Samples.

(* ================================================================== *)
(** * Facts about strings and outcomes *)
(* ================================================================== *)

Lemma prefix_iff_append (sub s : string) :
  String.prefix sub s = true <-> exists post, s = sub +:+ post.
Proof.
  revert s. induction sub as [|c sub IH]; intros s; simpl.
  - destruct s; simpl; split; intros _; eauto.
  - destruct s as [|d s]; simpl.
    + split; [discriminate | intros [post H]; discriminate].
    + destruct (Ascii.ascii_dec c d) as [->|Hne].
      * rewrite IH. split; intros [post H]; exists post.
        -- now rewrite H.
        -- now injection H.
      * split; [discriminate | intros [post H]; injection H; intros; congruence].
Qed.

(** [String_includes] is the substring test: [sub] occurs somewhere in [s]. *)
Lemma String_includes_iff (s sub : string) :
  String_includes s sub = true <->
  exists pre post, s = pre +:+ sub +:+ post.
Proof.
  induction s as [|c s IH].
  - cbn [String_includes]. rewrite orb_false_r, prefix_iff_append. split.
    + intros [post H]. exists EmptyString, post. exact H.
    + intros [pre [post H]]. destruct pre; [eauto | discriminate].
  - cbn [String_includes]. rewrite orb_true_iff, prefix_iff_append, IH. split.
    + intros [[post H] | [pre [post H]]].
      * exists EmptyString, post. exact H.
      * exists (String c pre), post. simpl. now rewrite H.
    + intros [pre [post H]]. destruct pre as [|d pre]; simpl in H.
      * left. eauto.
      * right. injection H as _ H. eauto.
Qed.

Lemma String_split_nonempty (sep : ascii) (s : string) :
  String_split sep s <> [].
Proof.
  induction s as [|c s IH]; simpl; [discriminate|].
  destruct (Ascii.eqb c sep); [discriminate|].
  destruct (String_split sep s); [contradiction | discriminate].
Qed.

Lemma get_property_object_type (v : Value) (key : string) :
  is_object_type v = true -> is_null v = false ->
  exists r, get_property v key = Ok r.
Proof.
  destruct v; simpl; try discriminate; intros _ _; eauto.
  destruct (array_index key); eauto.
  destruct (String.eqb key "length"); eauto.
Qed.

Lemma mapO_total {A B} (f : A -> Outcome B) (g : A -> B) (l : list A) :
  (forall x, f x = Ok (g x)) -> mapO f l = Ok (List.map g l).
Proof.
  intros Hf. induction l as [|x l IH]; simpl; [reflexivity|].
  now rewrite Hf, IH.
Qed.

(* ================================================================== *)
(** * RuleValidator: properties *)
(* ================================================================== *)

Module RuleValidatorFacts.
Import RuleValidator.

Lemma walk_not_indexable (v : Value) (part : string) (parts : list string) :
  not_indexable v = true -> walk v (part :: parts) = Ok JUndefined.
Proof.
  unfold not_indexable. destruct v; simpl; intros H; try reflexivity; discriminate.
Qed.

Lemma walk_total (parts : list string) :
  forall v, exists r, walk v parts = Ok r.
Proof.
  induction parts as [|part parts IH]; intros v; simpl; [eauto|].
  destruct (is_null v || is_undefined v) eqn:Hnull; [eauto|].
  destruct (is_object_type v) eqn:Hobj; [|eauto].
  apply orb_false_elim in Hnull as [Hnull _].
  destruct (get_property_object_type v part Hobj Hnull) as [next ->].
  simpl. apply IH.
Qed.

Lemma getFieldValue_total (data : Value) (field : string) :
  exists r, getFieldValue data field = Ok r.
Proof. apply walk_total. Qed.

Lemma evaluateCondition_total (condition : RuleCondition.t) (data : Value) :
  exists b, evaluateCondition condition data = Ok b.
Proof.
  unfold evaluateCondition.
  destruct (getFieldValue_total data (RuleCondition.field condition)) as [fv ->].
  simpl.
  destruct (RuleCondition.operator condition); eauto;
    destruct fv; eauto; destruct (RuleCondition.value condition); eauto.
Qed.

Lemma evaluateCondition_holds (condition : RuleCondition.t) (data : Value) :
  evaluateCondition condition data = Ok (holds data condition).
Proof.
  unfold holds. destruct (evaluateCondition_total condition data) as [b ->].
  reflexivity.
Qed.

Lemma every_evaluateCondition (data : Value) (conditions : list RuleCondition.t) :
  every (fun condition => evaluateCondition condition data) conditions
  = Ok (List.forallb (holds data) conditions).
Proof.
  induction conditions as [|c cs IH]; simpl; [reflexivity|].
  rewrite evaluateCondition_holds. simpl.
  destruct (holds data c); simpl; [exact IH | reflexivity].
Qed.

Lemma validateRule_total (rule : ComplianceRule.t) (data : Value) :
  validateRule rule data = Ok (result_of rule data).
Proof.
  unfold result_of, validateRule, validateRuleWith.
  destruct (negb (ComplianceRule.enabled rule)); [reflexivity|].
  rewrite every_evaluateCondition. reflexivity.
Qed.

Lemma result_of_severity (rule : ComplianceRule.t) (data : Value) :
  ValidationResult.severity (result_of rule data) = ComplianceRule.severity rule.
Proof.
  unfold result_of, validateRule, validateRuleWith.
  destruct (negb (ComplianceRule.enabled rule)); [reflexivity|].
  rewrite every_evaluateCondition. reflexivity.
Qed.


(** An absent field never equals an operand of the declared type. *)
Lemma equals_absent_field (condition : RuleCondition.t) (data : Value) :
  getFieldValue data (RuleCondition.field condition) = Ok JUndefined ->
  RuleCondition.operator condition = Equals ->
  is_condition_value (RuleCondition.value condition) = true ->
  evaluateCondition condition data = Ok false.
Proof.
  intros Hfield Hop Hvalue. unfold evaluateCondition.
  rewrite Hfield, Hop. simpl.
  destruct (RuleCondition.value condition); try discriminate; reflexivity.
Qed.

(** C5. For operator [notContains], when the extracted field value or
    the operand is not a string the evaluator returns [true], whereas
    [contains] returns [false] on the same mismatch; when both are
    strings, [notContains] returns the negated substring test. *)
Theorem notContains_asymmetry :
  forall (data : Value) (field : string) (operand : Value),
  exists fieldValue : Value,
    getFieldValue data field = Ok fieldValue /\
    (is_string fieldValue && is_string operand = false ->
     evaluateCondition (RuleCondition.mk field NotContains operand) data = Ok true /\
     evaluateCondition (RuleCondition.mk field Contains operand) data = Ok false) /\
    (forall s sub : string,
        fieldValue = JStr s -> operand = JStr sub ->
        evaluateCondition (RuleCondition.mk field NotContains operand) data
        = Ok (negb (String_includes s sub))).
Proof.
  intros data field operand.
  destruct (getFieldValue_total data field) as [fieldValue Hfield].
  exists fieldValue. split; [exact Hfield|].
  unfold evaluateCondition. simpl. rewrite Hfield. simpl. split.
  - intros Hmismatch.
    destruct fieldValue; simpl in *; auto; destruct operand; simpl in *; auto;
      discriminate.
  - intros s sub -> ->. reflexivity.
Qed.

Lemma notContains_asymmetry_witness :
  (evaluateCondition (RuleCondition.mk "count" NotContains (JStr "5"))
     Samples.count_record = Ok true /\
   evaluateCondition (RuleCondition.mk "count" Contains (JStr "5"))
     Samples.count_record = Ok false) /\
  evaluateCondition (RuleCondition.mk "password" NotContains (JStr "password"))
    Samples.password_record = Ok false.
Proof.
  split.
  - destruct (notContains_asymmetry Samples.count_record "count" (JStr "5"))
      as (fieldValue & Hfield & Hmismatch & _).
    vm_compute in Hfield. injection Hfield as <-.
    apply Hmismatch. reflexivity.
  - destruct (notContains_asymmetry Samples.password_record "password"
                (JStr "password"))
      as (fieldValue & Hfield & _ & Hstrings).
    vm_compute in Hfield. injection Hfield as <-.
    apply (Hstrings "mypassword123" "password"); reflexivity.
Defined.

(** C6. For every rule with [enabled = false] and every record,
    [validateRule] returns a result with [passed = true] and message
    "Rule is disabled"; the conditions are not evaluated: the result is
    the same whatever evaluating a condition would do (even throw). *)
Theorem disabled_rule_passes :
  forall (rule : ComplianceRule.t) (data : Value),
    ComplianceRule.enabled rule = false ->
    validateRule rule data = Ok (disabled_result rule) /\
    ValidationResult.passed (disabled_result rule) = true /\
    ValidationResult.message (disabled_result rule) = "Rule is disabled" /\
    (forall evaluate : RuleCondition.t -> Value -> Outcome bool,
        validateRuleWith evaluate rule data = Ok (disabled_result rule)).
Proof.
  intros rule data Hoff. unfold validateRule, validateRuleWith.
  rewrite Hoff. simpl. repeat split.
Qed.

Lemma disabled_rule_passes_witness :
  validateRule Samples.disabled_rule Samples.count_record
  = Ok (disabled_result Samples.disabled_rule).
Proof.
  exact (proj1 (disabled_rule_passes Samples.disabled_rule Samples.count_record
                  eq_refl)).
Defined.

Lemma walk_undefined (parts : list string) : walk JUndefined parts = Ok JUndefined.
Proof. destruct parts; reflexivity. Qed.

(** Walking a path is walking its first parts, then the rest from where
    they led. *)
Lemma walk_app (before after : list string) :
  forall data : Value,
    walk data (before ++ after) = (v <~ walk data before ;; walk v after).
Proof.
  induction before as [|part before IH]; intros data; simpl; [reflexivity|].
  destruct (is_null data || is_undefined data).
  - simpl. now rewrite walk_undefined.
  - destruct (is_object_type data).
    + destruct (get_property data part) as [next|e]; simpl; [apply IH | reflexivity].
    + simpl. now rewrite walk_undefined.
Qed.

(** C8. Condition evaluation is total and never raises: for every
    condition and record it returns a boolean.  Field extraction walks
    the record part by part and yields [undefined], not an error,
    whenever the walk has reached [null], [undefined] or a value that is
    not an object and a further part remains.  Evaluating [equals] for
    field "user.profile.role" against [{user:{}}] returns [false] for
    every operand of the declared type. *)
Theorem evaluateCondition_never_throws :
  (forall (condition : RuleCondition.t) (data : Value),
      exists b, evaluateCondition condition data = Ok b) /\
  (forall (data : Value) (field : string),
      exists v, getFieldValue data field = Ok v) /\
  (forall (data v : Value) (before : list string) (part : string)
          (after : list string),
      walk data before = Ok v ->
      not_indexable v = true ->
      walk data (before ++ part :: after) = Ok JUndefined) /\
  (forall operand : Value,
      is_condition_value operand = true ->
      evaluateCondition (Samples.role_equals operand) Samples.user_without_profile
      = Ok false).
Proof.
  split; [exact evaluateCondition_total|].
  split; [exact getFieldValue_total|].
  split.
  - intros data v before part after Hbefore Hstuck.
    rewrite walk_app, Hbefore. simpl obind. now apply walk_not_indexable.
  - intros operand Hoperand. apply equals_absent_field; auto.
Qed.

Lemma evaluateCondition_never_throws_witness :
  walk Samples.user_without_profile (["user"; "profile"] ++ "role" :: [])
  = Ok JUndefined /\
  evaluateCondition (Samples.role_equals (JStr "admin")) Samples.user_without_profile
  = Ok false.
Proof.
  split.
  - apply (proj1 (proj2 (proj2 evaluateCondition_never_throws))
             Samples.user_without_profile JUndefined ["user"; "profile"] "role" []);
      reflexivity.
  - apply (proj2 (proj2 (proj2 evaluateCondition_never_throws))). reflexivity.
Defined.

End RuleValidatorFacts.

(* ================================================================== *)
(** * PolicyValidator: properties *)
(* ================================================================== *)

Module PolicyValidatorFacts.
Import PolicyValidator.

Section Counting.

Context {A : Type}.

Lemma filter_complement_length (f : A -> bool) (l : list A) :
  (List.length (List.filter f l)
   + List.length (List.filter (fun x => negb (f x)) l) = List.length l)%nat.
Proof.
  induction l as [|x l IH]; simpl; [reflexivity|].
  destruct (f x); simpl; lia.
Qed.

Lemma filter_filter (f g : A -> bool) (l : list A) :
  List.filter g (List.filter f l) = List.filter (fun x => f x && g x) l.
Proof.
  induction l as [|x l IH]; simpl; [reflexivity|].
  destruct (f x); simpl; [destruct (g x)|]; now rewrite IH.
Qed.

End Counting.

Lemma severity_partition (l : list ValidationResult.t) :
  (List.length (List.filter (fun r => severity_eqb (ValidationResult.severity r) Critical) l)
   + List.length (List.filter (fun r => severity_eqb (ValidationResult.severity r) High) l)
   + List.length (List.filter (fun r => severity_eqb (ValidationResult.severity r) Medium) l)
   + List.length (List.filter (fun r => severity_eqb (ValidationResult.severity r) Low) l)
   = List.length l)%nat.
Proof.
  induction l as [|r l IH]; simpl; [reflexivity|].
  destruct (ValidationResult.severity r); simpl; lia.
Qed.

Lemma calculateSummary_counts (results : list ValidationResult.t) :
  let s := calculateSummary results in
  (Summary.failed s = Summary.total s - Summary.passed s)%Z /\
  (Summary.criticalFailures s + Summary.highFailures s
   + Summary.mediumFailures s + Summary.lowFailures s = Summary.failed s)%Z /\
  Summary.criticalFailures s = count_failed Critical results /\
  Summary.highFailures s = count_failed High results /\
  Summary.mediumFailures s = count_failed Medium results /\
  Summary.lowFailures s = count_failed Low results.
Proof.
  unfold calculateSummary, count_failed. cbn -[List.filter].
  pose proof (filter_complement_length
                (fun r => ValidationResult.passed r) results) as Hsplit.
  pose proof (severity_partition
                (List.filter (fun r => negb (ValidationResult.passed r)) results))
    as Hsev.
  rewrite !filter_filter. rewrite !filter_filter in Hsev.
  repeat split; lia.
Qed.

(** C1. [isPolicyPassing(report)] is true exactly when the report has no
    critical and no high failures; the medium and low counters never
    affect the verdict. *)
Theorem isPolicyPassing_iff :
  (forall report : ComplianceReport.t,
      isPolicyPassing report = true <->
      Summary.criticalFailures (ComplianceReport.summary report) = 0%Z /\
      Summary.highFailures (ComplianceReport.summary report) = 0%Z) /\
  (forall (report : ComplianceReport.t) (medium low : Z),
      isPolicyPassing (with_medium_low medium low report) = isPolicyPassing report).
Proof.
  split.
  - intros report. unfold isPolicyPassing.
    rewrite andb_true_iff, !Z.eqb_eq. reflexivity.
  - intros report medium low. reflexivity.
Qed.

Lemma isPolicyPassing_iff_witness :
  isPolicyPassing Samples.medium_low_report = true.
Proof.
  apply (proj2 (proj1 isPolicyPassing_iff Samples.medium_low_report)).
  split; reflexivity.
Defined.

Section WithHost.

Variable host : Host.

(** C3. For every policy and record, [validatePolicy] returns a report
    whose summary satisfies [failed = total - passed] and whose four
    severity counters add up to [failed], each counting exactly the
    failed results of its severity. *)
Theorem validatePolicy_summary_consistent :
  forall (policy : CompliancePolicy.t) (data : Value) (st : State),
  exists (report : ComplianceReport.t) (st' : State),
    validatePolicy host policy data st = (Ok report, st') /\
    let s := ComplianceReport.summary report in
    let results := ComplianceReport.results report in
    (Summary.failed s = Summary.total s - Summary.passed s)%Z /\
    (Summary.criticalFailures s + Summary.highFailures s
     + Summary.mediumFailures s + Summary.lowFailures s = Summary.failed s)%Z /\
    Summary.criticalFailures s = count_failed Critical results /\
    Summary.highFailures s = count_failed High results /\
    Summary.mediumFailures s = count_failed Medium results /\
    Summary.lowFailures s = count_failed Low results.
Proof.
  intros policy data st. unfold validatePolicy, bindM, lift, pure, new_Date.
  rewrite (mapO_total _ (fun rule => RuleValidator.result_of rule data))
    by (intros rule; apply RuleValidatorFacts.validateRule_total).
  eexists _, _. split; [reflexivity|].
  cbn -[calculateSummary count_failed]. apply calculateSummary_counts.
Qed.

End WithHost.

End PolicyValidatorFacts.

(* ================================================================== *)
(** * AuditLogger: properties *)
(* ================================================================== *)

Module AuditLoggerFacts.
Import AuditLogger.

Section Lists.

Context {A : Type}.

Lemma lastn_length (n : nat) (l : list A) :
  List.length (lastn n l) = Nat.min n (List.length l).
Proof. unfold lastn. rewrite List.length_skipn. lia. Qed.

Lemma lastn_all (n : nat) (l : list A) :
  (List.length l <= n)%nat -> lastn n l = l.
Proof.
  intros Hle. unfold lastn.
  replace (List.length l - n)%nat with 0%nat by lia. reflexivity.
Qed.

Lemma skipn_snoc (d : nat) (l rest : list A) :
  (d <= List.length l)%nat -> List.skipn d l ++ rest = List.skipn d (l ++ rest).
Proof.
  intros Hle. rewrite List.skipn_app.
  replace (d - List.length l)%nat with 0%nat by lia. reflexivity.
Qed.

(** Trimming early does not change what is retained in the end. *)
Lemma lastn_app_lastn (n : nat) (l rest : list A) :
  lastn n (lastn n l ++ rest) = lastn n (l ++ rest).
Proof.
  unfold lastn at 2. rewrite skipn_snoc by lia.
  unfold lastn. rewrite List.skipn_skipn. f_equal.
  rewrite List.length_skipn, !List.length_app. lia.
Qed.

(** With a capacity of at least one, [trimLogs] keeps the last
    [maxLogSize] elements. *)
Lemma trimmed_positive (maxLogSize : Z) (l : list A) :
  (1 <= maxLogSize)%Z -> trimmed maxLogSize l = lastn (Z.to_nat maxLogSize) l.
Proof.
  intros Hpos. unfold trimmed, slice, lastn.
  destruct (Z.gtb_spec (Z.of_nat (List.length l)) maxLogSize) as [Hgt|Hle].
  - destruct (Z.ltb_spec (- maxLogSize) 0); [|lia]. f_equal. lia.
  - replace (List.length l - Z.to_nat maxLogSize)%nat with 0%nat by lia.
    reflexivity.
Qed.

(** With capacity zero, [slice(-0)] is [slice(0)]: nothing is dropped. *)
Lemma trimmed_zero (l : list A) : trimmed 0 l = l.
Proof.
  unfold trimmed, slice. destruct (Z.of_nat (List.length l) >? 0)%Z; [|reflexivity].
  change (- 0)%Z with 0%Z. cbn [Z.ltb Z.compare].
  replace (Z.to_nat (Z.min 0 (Z.of_nat (List.length l)))) with 0%nat by lia.
  reflexivity.
Qed.

End Lists.

Section WithHost.

Variable host : Host.

(** One call of [log], in closed form: it never throws, reads the clock
    twice, draws one random suffix, appends and trims. *)
Lemma log_eq (call : LogCall) (st : State) :
  log host (call_action call) (call_resourceType call) (call_resourceId call)
      (call_userId call) (call_details call) st
  = (Ok (entry_at host st call),
     {| clock_reads := S (S (clock_reads st));
        random_draws := S (random_draws st);
        logs := trimmed (maxLogSize st) (logs st ++ [entry_at host st call]);
        maxLogSize := maxLogSize st;
        policies := policies st |}).
Proof.
  destruct st as [reads draws entries capacity registry].
  unfold log, generateId, bindM, Date_now, Math_random36, new_Date, push,
    modify, trimLogs, pure, trimmed, entry_at. simpl.
  destruct (Z.of_nat (List.length (entries ++ _)) >? capacity)%Z; reflexivity.
Qed.

(** With capacity zero the log is never trimmed. *)
Lemma log_all_capacity_zero (calls : list LogCall) :
  forall st : State,
    maxLogSize st = 0%Z ->
    exists (entries : list AuditLogEntry.t) (st' : State),
      log_all host calls st = (Ok entries, st') /\
      List.length entries = List.length calls /\
      logs st' = logs st ++ entries /\
      maxLogSize st' = 0%Z.
Proof.
  induction calls as [|call calls IH]; intros st Hzero.
  - exists [], st. simpl. rewrite List.app_nil_r. auto.
  - cbn [log_all]. unfold bindM at 1. rewrite log_eq. unfold bindM.
    match goal with |- context [log_all host calls ?s] => set (st1 := s) end.
    destruct (IH st1 Hzero) as (entries & st' & Hrun & Hlen & Hlogs & Hcap).
    rewrite Hrun. unfold pure.
    exists (entry_at host st call :: entries), st'.
    repeat split; auto.
    + simpl. now rewrite Hlen.
    + rewrite Hlogs. subst st1. simpl. rewrite Hzero, trimmed_zero.
      now rewrite <- List.app_assoc.
Qed.

(** X9. Behaviour for a capacity of at least one: after any sequence of
    calls the log holds at most [maxLogSize] entries, namely the most
    recent [maxLogSize] of everything appended, in insertion order. *)
Theorem log_keeps_most_recent (calls : list LogCall) :
  forall st : State,
    (1 <= maxLogSize st)%Z ->
    (Z.of_nat (List.length (logs st)) <= maxLogSize st)%Z ->
    exists (entries : list AuditLogEntry.t) (st' : State),
      log_all host calls st = (Ok entries, st') /\
      List.length entries = List.length calls /\
      logs st' = lastn (Z.to_nat (maxLogSize st)) (logs st ++ entries) /\
      (Z.of_nat (List.length (logs st')) <= maxLogSize st)%Z.
Proof.
  induction calls as [|call calls IH]; intros st Hpos Hfit.
  - exists [], st. simpl. rewrite List.app_nil_r, lastn_all by lia. auto.
  - cbn [log_all]. unfold bindM at 1. rewrite log_eq. unfold bindM.
    match goal with |- context [log_all host calls ?s] => set (st1 := s) end.
    assert (Hlogs1 : logs st1
                     = lastn (Z.to_nat (maxLogSize st))
                             (logs st ++ [entry_at host st call])).
    { subst st1. simpl. now apply trimmed_positive. }
    assert (Hfit1 : (Z.of_nat (List.length (logs st1)) <= maxLogSize st1)%Z).
    { rewrite Hlogs1, lastn_length. subst st1. simpl. lia. }
    destruct (IH st1 Hpos Hfit1) as (entries & st' & Hrun & Hlen & Hlogs & Hcap).
    rewrite Hrun. unfold pure.
    exists (entry_at host st call :: entries), st'.
    repeat split; auto.
    + simpl. now rewrite Hlen.
    + rewrite Hlogs, Hlogs1. subst st1. simpl.
      rewrite lastn_app_lastn. now rewrite <- List.app_assoc.
Qed.

(** C4, at capacity zero.  On a logger built with [maxLogSize = 0] every
    call of [log] keeps its entry: after the calls the log holds one
    entry per call, above the configured capacity as soon as one call
    was made. *)
Theorem log_capacity_zero_not_enforced :
  forall calls : list LogCall,
  exists (entries : list AuditLogEntry.t) (st' : State),
    log_all host calls (initial 0) = (Ok entries, st') /\
    logs st' = entries /\
    List.length (logs st') = List.length calls /\
    maxLogSize st' = 0%Z /\
    logs (snd (log_all host [Samples.create_p1] (initial 0)))
    = [entry_at host (initial 0) Samples.create_p1].
Proof.
  intros calls.
  destruct (log_all_capacity_zero calls (initial 0) eq_refl)
    as (entries & st' & Hrun & Hlen & Hlogs & Hcap).
  exists entries, st'. simpl in Hlogs.
  repeat split; auto. now rewrite Hlogs.
Qed.

End WithHost.

End AuditLoggerFacts.

(* ================================================================== *)
(** * PolicyParser: what [parsePolicy] touches *)
(* ================================================================== *)

Module PolicyParserFacts.
Import PolicyParser.

(** Peel the next statement of a method body: a lifted pure step
    returns or throws, a conditional takes one of its branches. *)
Ltac peel :=
  match goal with
  | |- context [match ?o with Ok _ => _ | Throw _ => _ end] => destruct o eqn:?
  | |- context [match ?o with Some _ => _ | None => _ end] => destruct o eqn:?
  | |- context [if ?b then _ else _] => destruct b eqn:?
  end; cbn [negb fst snd].

Section WithHost.

Variable host : Host.

(** Parsing reads the clock and nothing else: the registry and the
    audit log are the same afterwards, whether it returns or throws. *)
Lemma parsePolicy_frame (input : Value) (st st1 : State)
    (r : Outcome CompliancePolicy.t) :
  parsePolicy host input st = (r, st1) ->
  policies st1 = policies st /\ logs st1 = logs st /\
  maxLogSize st1 = maxLogSize st /\ random_draws st1 = random_draws st.
Proof.
  unfold parsePolicy, bindM, lift, throw, pure, date_or_now, new_Date.
  repeat peel; intros H; injection H as <- <-; simpl; auto.
Qed.

(** The [createdAt] of a parsed policy: the input's own when it is a
    date or parses as one, the current time otherwise. *)
Lemma parsePolicy_createdAt (input : Value) (st st1 : State)
    (parsed : CompliancePolicy.t) :
  parsePolicy host input st = (Ok parsed, st1) ->
  CompliancePolicy.createdAt parsed
  = match parseDate host (property input "createdAt") with
    | Some d => d
    | None => ValidDate (clock host (clock_reads st))
    end.
Proof.
  unfold parsePolicy, bindM, lift, throw, pure, date_or_now, new_Date, property.
  repeat peel; intros H; try discriminate H; injection H as <- <-; simpl;
    congruence.
Qed.

End WithHost.

End PolicyParserFacts.

(* ================================================================== *)
(** * ComplianceService: properties *)
(* ================================================================== *)

Module ComplianceServiceFacts.
Import ComplianceService.

Lemma has_true (id : string) (st : State) :
  has id st = true <-> is_Some (policies st !! id).
Proof.
  unfold has. destruct (policies st !! id) eqn:Hget; split; intros H; eauto.
  - discriminate.
  - destruct H as [p Hp]. discriminate.
Qed.

Lemma has_false (id : string) (st : State) :
  has id st = false <-> policies st !! id = None.
Proof.
  unfold has. destruct (policies st !! id); split; intros H; auto; discriminate.
Qed.

Section WithHost.

Variable host : Host.

(** One call of [log] with explicit arguments. *)
Lemma log_run (action : Action) (resourceType : ResourceType)
    (resourceId userId : string) (details : list (string * Value)) (st : State) :
  exists (entry : AuditLogEntry.t) (st' : State),
    AuditLogger.log host action resourceType resourceId userId details st
    = (Ok entry, st') /\
    policies st' = policies st /\
    logs st' = AuditLogger.trimmed (maxLogSize st) (logs st ++ [entry]) /\
    AuditLogEntry.action entry = action /\
    AuditLogEntry.resourceId entry = resourceId.
Proof.
  pose proof (AuditLoggerFacts.log_eq host
                {| AuditLogger.call_action := action;
                   AuditLogger.call_resourceType := resourceType;
                   AuditLogger.call_resourceId := resourceId;
                   AuditLogger.call_userId := userId;
                   AuditLogger.call_details := details |} st) as Hlog.
  cbn [AuditLogger.call_action AuditLogger.call_resourceType
       AuditLogger.call_resourceId AuditLogger.call_userId
       AuditLogger.call_details] in Hlog.
  eexists _, _. split; [exact Hlog|]. simpl. auto.
Qed.

(** C2, as the code has it.  After a successful
    [updatePolicy(id, rawInput, userId)] the stored record is the freshly
    parsed input with its id forced to [id] and its [updatedAt] set to
    the clock reading of the update: the id is the original one; the
    [createdAt] is the one parsed from [rawInput] (its own [createdAt]
    when that is a date, the time of the update otherwise), not the one
    set at registration; the [updatedAt] is at least the previous one
    whenever the previous one is not later than the clock reading. *)
Theorem updatePolicy_stored_record :
  forall (policyId : string) (policyInput : Value) (userId : string)
         (st st' : State) (policy : CompliancePolicy.t),
    updatePolicy host policyId policyInput userId st = (Ok policy, st') ->
    exists (parsed : CompliancePolicy.t) (st1 : State),
      PolicyParser.parsePolicy host policyInput st = (Ok parsed, st1) /\
      is_Some (policies st !! policyId) /\
      policies st' !! policyId = Some policy /\
      CompliancePolicy.id policy = policyId /\
      CompliancePolicy.createdAt policy = CompliancePolicy.createdAt parsed /\
      CompliancePolicy.createdAt policy
      = match PolicyParser.parseDate host (property policyInput "createdAt") with
        | Some d => d
        | None => ValidDate (clock host (clock_reads st))
        end /\
      CompliancePolicy.updatedAt policy = ValidDate (clock host (clock_reads st1)) /\
      (forall previous : CompliancePolicy.t,
          policies st !! policyId = Some previous ->
          date_leb (CompliancePolicy.updatedAt previous)
                   (ValidDate (clock host (clock_reads st1))) = true ->
          date_leb (CompliancePolicy.updatedAt previous)
                   (CompliancePolicy.updatedAt policy) = true).
Proof.
  intros policyId policyInput userId st st' policy.
  unfold updatePolicy, bindM at 1, get_state.
  destruct (has policyId st) eqn:Hhas; cbn [negb]; [|discriminate].
  unfold bindM at 1.
  destruct (PolicyParser.parsePolicy host policyInput st) as [[parsed|e] st1]
    eqn:Hparse; [|discriminate].
  unfold bindM at 1, new_Date. unfold bindM at 1, modify.
  match goal with
  | |- context [AuditLogger.log host ?a ?r ?i ?u ?d] =>
      unfold bindM;
      match goal with
      | |- context [AuditLogger.log host a r i u d ?s] =>
          destruct (log_run a r i u d s) as (entry & st2 & -> & Hpol & _)
      end
  end.
  unfold pure. intros H. injection H as <- <-.
  exists parsed, st1. rewrite Hpol. cbn [policies with_policies with_clock_reads].
  repeat split.
  - now apply has_true.
  - apply lookup_insert_eq.
  - simpl. now apply PolicyParserFacts.parsePolicy_createdAt with (st1 := st1).
  - intros previous _ Hle. exact Hle.
Qed.

(** C7. For every policy id absent from the registry, [deletePolicy]
    returns [false] and leaves the whole state as it was: the policy map
    is unchanged and nothing is appended to the audit log. *)
Theorem deletePolicy_absent_no_effect :
  forall (policyId userId : string) (st : State),
    policies st !! policyId = None ->
    deletePolicy host policyId userId st = (Ok false, st) /\
    policies (snd (deletePolicy host policyId userId st)) = policies st /\
    List.length (logs (snd (deletePolicy host policyId userId st)))
    = List.length (logs st).
Proof.
  intros policyId userId st Habsent.
  assert (Hrun : deletePolicy host policyId userId st = (Ok false, st)).
  { unfold deletePolicy, bindM, get_state.
    apply has_false in Habsent. rewrite Habsent. reflexivity. }
  rewrite Hrun. auto.
Qed.

(** C9. When the id of the parsed input is already registered,
    [registerPolicy] throws the duplicate-id error and changes neither
    the policy map (the id still maps to the stored policy) nor the
    audit log (no entry is appended). *)
Theorem registerPolicy_duplicate_atomic :
  forall (policyInput : Value) (userId : string) (st st1 : State)
         (policy : CompliancePolicy.t),
    PolicyParser.parsePolicy host policyInput st = (Ok policy, st1) ->
    is_Some (policies st !! CompliancePolicy.id policy) ->
    exists st' : State,
      registerPolicy host policyInput userId st
      = (Throw (Error ("Policy with ID " +:+ dq +:+ CompliancePolicy.id policy
                       +:+ dq +:+ " already exists")), st') /\
      policies st' = policies st /\
      policies st' !! CompliancePolicy.id policy
      = policies st !! CompliancePolicy.id policy /\
      logs st' = logs st.
Proof.
  intros policyInput userId st st1 policy Hparse Hdup.
  destruct (PolicyParserFacts.parsePolicy_frame host _ _ _ _ Hparse)
    as (Hpol & Hlogs & _).
  exists st1. unfold registerPolicy, bindM, get_state. rewrite Hparse.
  assert (Hhas : has (CompliancePolicy.id policy) st1 = true).
  { apply has_true. now rewrite Hpol. }
  rewrite Hhas. unfold throw. rewrite Hpol. auto.
Qed.

(** C10. For every id absent from the registry, [updatePolicy] throws
    the not-found error before it looks at the input, whatever the
    input is, and leaves the state as it was. *)
Theorem updatePolicy_absent_not_found :
  forall (policyId : string) (policyInput : Value) (userId : string) (st : State),
    policies st !! policyId = None ->
    updatePolicy host policyId policyInput userId st
    = (Throw (Error ("Policy with ID " +:+ dq +:+ policyId +:+ dq +:+ " not found")),
       st).
Proof.
  intros policyId policyInput userId st Habsent.
  unfold updatePolicy, bindM, get_state.
  apply has_false in Habsent. rewrite Habsent. reflexivity.
Qed.

End WithHost.

Lemma updatePolicy_stored_record_witness :
  updatePolicy Samples.host "p1" Samples.policy_v2 "user-2" Samples.registered
  = (Ok Samples.updated_policy, snd Samples.updated) /\
  policies (snd Samples.updated) !! "p1" = Some Samples.updated_policy /\
  CompliancePolicy.id Samples.updated_policy = "p1".
Proof.
  assert (Hrun : updatePolicy Samples.host "p1" Samples.policy_v2 "user-2"
                   Samples.registered
                 = (Ok Samples.updated_policy, snd Samples.updated))
    by (vm_compute; reflexivity).
  destruct (updatePolicy_stored_record Samples.host "p1" Samples.policy_v2
              "user-2" Samples.registered (snd Samples.updated)
              Samples.updated_policy Hrun)
    as (parsed & st1 & _ & _ & Hstored & Hid & _).
  split; [exact Hrun|]. split; [exact Hstored | exact Hid].
Defined.

(** C2, as the specification states it, fails: a policy registered with
    [createdAt] 2024-01-01 and [updatedAt] 2030-01-01 and then updated
    with an input carrying [createdAt] 2024-02-01 is stored with the
    new [createdAt], and with an [updatedAt] (the clock reading, in
    2023) that is earlier than the previous one. *)
Lemma updatePolicy_createdAt_not_preserved :
  policies Samples.registered !! "p1" = Some Samples.registered_policy /\
  updatePolicy Samples.host "p1" Samples.policy_v2 "user-2" Samples.registered
  = (Ok Samples.updated_policy, snd Samples.updated) /\
  policies (snd Samples.updated) !! "p1" = Some Samples.updated_policy /\
  CompliancePolicy.createdAt Samples.registered_policy = ValidDate 1704067200000 /\
  CompliancePolicy.createdAt Samples.updated_policy = ValidDate 1706745600000 /\
  CompliancePolicy.createdAt Samples.updated_policy
  <> CompliancePolicy.createdAt Samples.registered_policy /\
  date_leb (CompliancePolicy.updatedAt Samples.registered_policy)
           (CompliancePolicy.updatedAt Samples.updated_policy) = false.
Proof.
  repeat split; try (vm_compute; reflexivity).
  simpl. intros H. discriminate H.
Qed.

Lemma deletePolicy_absent_no_effect_witness :
  deletePolicy Samples.host "ghost" "user-1" Samples.registered
  = (Ok false, Samples.registered).
Proof.
  apply (proj1 (deletePolicy_absent_no_effect Samples.host "ghost" "user-1"
                  Samples.registered ltac:(vm_compute; reflexivity))).
Defined.

Lemma registerPolicy_duplicate_atomic_witness :
  exists st' : State,
    registerPolicy Samples.host Samples.policy_v1 "user-2" Samples.registered
    = (Throw (Error ("Policy with ID " +:+ dq +:+ "p1" +:+ dq +:+ " already exists")),
       st') /\
    policies st' = policies Samples.registered /\
    logs st' = logs Samples.registered.
Proof.
  destruct (registerPolicy_duplicate_atomic Samples.host Samples.policy_v1
              "user-2" Samples.registered Samples.registered
              Samples.registered_policy
              ltac:(vm_compute; reflexivity)
              ltac:(exists Samples.registered_policy; vm_compute; reflexivity))
    as (st' & Hrun & Hpol & _ & Hlogs).
  exists st'. split; [exact Hrun|]. split; [exact Hpol | exact Hlogs].
Defined.

Lemma updatePolicy_absent_not_found_witness :
  updatePolicy Samples.host "ghost" JNull "user-1" Samples.registered
  = (Throw (Error ("Policy with ID " +:+ dq +:+ "ghost" +:+ dq +:+ " not found")),
     Samples.registered).
Proof.
  apply (updatePolicy_absent_not_found Samples.host "ghost" JNull "user-1"
           Samples.registered).
  vm_compute. reflexivity.
Defined.

(** The counterexample does not depend on the host: on every host the
    two calls store the [createdAt] of the second input. *)
Lemma update_replaces_createdAt_on_any_host (h : Host) :
  policies (snd (registerPolicy h Samples.policy_v1 "user-1" (initial 10000))) !! "p1"
  = Some Samples.registered_policy /\
  fst (updatePolicy h "p1" Samples.policy_v2 "user-2"
         (snd (registerPolicy h Samples.policy_v1 "user-1" (initial 10000))))
  = Ok (with_updatedAt (ValidDate (clock h 3)) Samples.updated_policy).
Proof. split; vm_compute; reflexivity. Qed.

(** The two validation scenarios of the specification. *)
Example validate_active :
  Samples.summary_of
    (validate Samples.host "p1" (JObject 1 [("status", JStr "active")]) "user-1"
       Samples.with_status_policy)
  = Some {| Summary.total := 1; Summary.passed := 1; Summary.failed := 0;
            Summary.criticalFailures := 0; Summary.highFailures := 0;
            Summary.mediumFailures := 0; Summary.lowFailures := 0 |}.
Proof. vm_compute. reflexivity. Qed.

Example validate_inactive :
  Samples.summary_of
    (validate Samples.host "p1" (JObject 1 [("status", JStr "inactive")]) "user-1"
       Samples.with_status_policy)
  = Some {| Summary.total := 1; Summary.passed := 0; Summary.failed := 1;
            Summary.criticalFailures := 0; Summary.highFailures := 1;
            Summary.mediumFailures := 0; Summary.lowFailures := 0 |}.
Proof. vm_compute. reflexivity. Qed.

End ComplianceServiceFacts.

(* ================================================================== *)
(** * RuleValidator: paths, operators and rule results *)
(* ================================================================== *)

Module RuleValidatorMore.
Import RuleValidator.





(** X2. [equals] is strict: against a string operand it holds exactly
    when the field value is that very string (a number or an absent
    field never equals a string), and [notEquals] returns the opposite
    verdict on every condition and record. *)
Theorem equals_string_strict :
  (forall (field s : string) (data : Value),
      evaluateCondition (RuleCondition.mk field Equals (JStr s)) data = Ok true <->
      getFieldValue data field = Ok (JStr s)) /\
  (forall (field : string) (operand data : Value),
      exists b : bool,
        evaluateCondition (RuleCondition.mk field Equals operand) data = Ok b /\
        evaluateCondition (RuleCondition.mk field NotEquals operand) data
        = Ok (negb b)).
Proof.
  split.
  - intros field s data. unfold evaluateCondition. simpl.
    destruct (RuleValidatorFacts.getFieldValue_total data field) as [fv ->]. simpl.
    split.
    + intros H. injection H as H. destruct fv; simpl in H; try discriminate.
      apply String.eqb_eq in H. now subst.
    + intros H. injection H as ->. simpl. now rewrite String.eqb_refl.
  - intros field operand data. unfold evaluateCondition. simpl.
    destruct (RuleValidatorFacts.getFieldValue_total data field) as [fv ->]. simpl.
    eauto.
Qed.

Lemma equals_string_strict_witness :
  evaluateCondition (RuleCondition.mk "user.profile.role" Equals (JStr "admin"))
    Samples.admin_record = Ok true.
Proof.
  apply (proj2 (proj1 equals_string_strict "user.profile.role" "admin"
                  Samples.admin_record)).
  reflexivity.
Defined.

(** X3. [contains] holds exactly when the field value and the operand
    are both strings and the operand occurs inside the field value. *)
Theorem contains_iff_substring :
  forall (field : string) (operand data : Value),
    evaluateCondition (RuleCondition.mk field Contains operand) data = Ok true <->
    exists s sub pre post : string,
      getFieldValue data field = Ok (JStr s) /\ operand = JStr sub /\
      s = pre +:+ sub +:+ post.
Proof.
  intros field operand data. unfold evaluateCondition. simpl.
  destruct (RuleValidatorFacts.getFieldValue_total data field) as [fv ->]. simpl.
  split.
  - intros H.
    destruct fv; try discriminate; destruct operand; try discriminate.
    injection H as H. apply String_includes_iff in H as (pre & post & H).
    eauto 8.
  - intros (s & sub & pre & post & Hfv & -> & Hs). injection Hfv as ->.
    f_equal. apply String_includes_iff. eauto.
Qed.

Lemma contains_iff_substring_witness :
  evaluateCondition (RuleCondition.mk "password" Contains (JStr "password"))
    Samples.password_record = Ok true.
Proof.
  apply (proj2 (contains_iff_substring "password" (JStr "password")
                  Samples.password_record)).
  exists "mypassword123", "password", "my", "123". repeat split.
Defined.





End RuleValidatorMore.

(* ================================================================== *)
(** * PolicyValidator: reports *)
(* ================================================================== *)

Module PolicyValidatorMore.
Import PolicyValidator.

Lemma result_of_ruleId (rule : ComplianceRule.t) (data : Value) :
  ValidationResult.ruleId (RuleValidator.result_of rule data) = ComplianceRule.id rule.
Proof.
  unfold RuleValidator.result_of, RuleValidator.validateRule,
    RuleValidator.validateRuleWith.
  destruct (negb (ComplianceRule.enabled rule)); [reflexivity|].
  rewrite RuleValidatorFacts.every_evaluateCondition. reflexivity.
Qed.

Lemma filter_sublist {A} (f : A -> bool) (l : list A) :
  sublist (List.filter f l) l.
Proof.
  induction l as [|x l IH]; simpl; [constructor|].
  destruct (f x); now constructor.
Qed.


Section WithHost.

Variable host : Host.

(** [validatePolicy] in closed form: it never throws and reads the
    clock once, after the rules have been evaluated. *)
Lemma validatePolicy_eq (policy : CompliancePolicy.t) (data : Value) (st : State) :
  validatePolicy host policy data st
  = (Ok {| ComplianceReport.policyId := CompliancePolicy.id policy;
           ComplianceReport.policyName := CompliancePolicy.name policy;
           ComplianceReport.timestamp := ValidDate (clock host (clock_reads st));
           ComplianceReport.results :=
             List.map (fun rule => RuleValidator.result_of rule data)
                      (CompliancePolicy.rules policy);
           ComplianceReport.summary :=
             calculateSummary
               (List.map (fun rule => RuleValidator.result_of rule data)
                         (CompliancePolicy.rules policy)) |},
     with_clock_reads (S (clock_reads st)) st).
Proof.
  unfold validatePolicy, bindM, lift, pure, new_Date.
  rewrite (mapO_total _ (fun rule => RuleValidator.result_of rule data))
    by (intros rule; apply RuleValidatorFacts.validateRule_total).
  reflexivity.
Qed.

(** X6. [validatePolicy] returns one result per rule, in the order of
    [policy.rules], each carrying its rule's id and severity; the
    report names the policy, its [total] is the number of rules, and
    neither the registry nor the audit log is touched. *)
Theorem validatePolicy_one_result_per_rule :
  forall (policy : CompliancePolicy.t) (data : Value) (st : State),
  exists (report : ComplianceReport.t) (st' : State),
    validatePolicy host policy data st = (Ok report, st') /\
    ComplianceReport.policyId report = CompliancePolicy.id policy /\
    ComplianceReport.policyName report = CompliancePolicy.name policy /\
    List.map ValidationResult.ruleId (ComplianceReport.results report)
    = List.map ComplianceRule.id (CompliancePolicy.rules policy) /\
    List.map ValidationResult.severity (ComplianceReport.results report)
    = List.map ComplianceRule.severity (CompliancePolicy.rules policy) /\
    Summary.total (ComplianceReport.summary report)
    = Z.of_nat (List.length (CompliancePolicy.rules policy)) /\
    policies st' = policies st /\ logs st' = logs st.
Proof.
  intros policy data st. rewrite validatePolicy_eq. eexists _, _.
  split; [reflexivity|]. cbn -[calculateSummary].
  repeat split.
  - rewrite List.map_map. apply List.map_ext. intros rule. apply result_of_ruleId.
  - rewrite List.map_map. apply List.map_ext. intros rule.
    apply RuleValidatorFacts.result_of_severity.
  - unfold calculateSummary. cbn. now rewrite List.length_map.
Qed.

(** X7. On a report of [validatePolicy], [getFailedRules] returns the
    failed results only, in report order, and as many of them as
    [summary.failed] says. *)
Theorem getFailedRules_matches_summary :
  forall (policy : CompliancePolicy.t) (data : Value) (st : State),
  exists (report : ComplianceReport.t) (st' : State),
    validatePolicy host policy data st = (Ok report, st') /\
    Z.of_nat (List.length (getFailedRules report))
    = Summary.failed (ComplianceReport.summary report) /\
    sublist (getFailedRules report) (ComplianceReport.results report) /\
    (forall result : ValidationResult.t,
        List.In result (getFailedRules report) <->
        List.In result (ComplianceReport.results report) /\
        ValidationResult.passed result = false).
Proof.
  intros policy data st. rewrite validatePolicy_eq. eexists _, _.
  split; [reflexivity|]. unfold getFailedRules. cbn -[List.filter].
  repeat split.
  - apply filter_sublist.
  - apply List.filter_In in H. tauto.
  - apply List.filter_In in H. destruct H as [_ H]. now apply negb_true_iff in H.
  - intros [Hin Hfailed]. apply List.filter_In. split; [exact Hin|].
    now rewrite Hfailed.
Qed.



End WithHost.

Lemma getFailedRules_matches_summary_witness :
  exists (report : ComplianceReport.t) (st' : State),
    validatePolicy Samples.host Samples.admin_policy Samples.count_record
      (initial 10000) = (Ok report, st') /\
    (forall result : ValidationResult.t,
        List.In result (getFailedRules report) ->
        ValidationResult.passed result = false).
Proof.
  destruct (getFailedRules_matches_summary Samples.host Samples.admin_policy
              Samples.count_record (initial 10000))
    as (report & st' & Hrun & _ & _ & Hin).
  exists report, st'. split; [exact Hrun|].
  intros result Hfailed. exact (proj2 (proj1 (Hin result) Hfailed)).
Defined.


End PolicyValidatorMore.

(* ================================================================== *)
(** * AuditLogger: the stored entry and the queries *)
(* ================================================================== *)

Module AuditLoggerMore.
Import AuditLogger.

(** Five entries logged at capacity three: the last three are retained,
    in order. *)
Lemma log_keeps_most_recent_witness :
  exists (entries : list AuditLogEntry.t) (st' : State),
    log_all Samples.host Samples.five_calls (initial 3) = (Ok entries, st') /\
    List.length entries = 5%nat /\
    logs st' = lastn 3 entries /\
    (Z.of_nat (List.length (logs st')) <= 3)%Z.
Proof.
  destruct (AuditLoggerFacts.log_keeps_most_recent Samples.host
              Samples.five_calls (initial 3)
              ltac:(simpl; lia) ltac:(simpl; lia))
    as (entries & st' & Hrun & Hlen & Hlogs & Hfit).
  exists entries, st'.
  split; [exact Hrun|]. split; [exact Hlen|]. split; [exact Hlogs | exact Hfit].
Defined.



Lemma fold_increment (entries : list AuditLogEntry.t) :
  forall counts : ActionCounts.t,
    let result :=
      List.fold_left (fun counts log => increment (AuditLogEntry.action log) counts)
                     entries counts in
    (ActionCounts.validate result
     = ActionCounts.validate counts + count_action Validate entries)%Z /\
    (ActionCounts.create result
     = ActionCounts.create counts + count_action Create entries)%Z /\
    (ActionCounts.update result
     = ActionCounts.update counts + count_action Update entries)%Z /\
    (ActionCounts.delete result
     = ActionCounts.delete counts + count_action Delete entries)%Z.
Proof.
  induction entries as [|entry entries IH]; intros counts.
  - unfold count_action. simpl. repeat split; lia.
  - cbn [List.fold_left].
    destruct (IH (increment (AuditLogEntry.action entry) counts))
      as (Hv & Hc & Hu & Hd).
    cbn zeta. rewrite Hv, Hc, Hu, Hd. unfold count_action. simpl.
    destruct (AuditLogEntry.action entry); simpl; repeat split; lia.
Qed.

Lemma action_partition (entries : list AuditLogEntry.t) :
  (count_action Validate entries + count_action Create entries
   + count_action Update entries + count_action Delete entries
   = Z.of_nat (List.length entries))%Z.
Proof.
  unfold count_action. induction entries as [|entry entries IH]; simpl; [reflexivity|].
  destruct (AuditLogEntry.action entry); simpl; lia.
Qed.

(** X11. [getLogs] filters by inclusive bounds and keeps the stored
    order: without bounds it returns the whole log; an entry is
    returned exactly when it is stored and its timestamp is within
    every bound given; a bound that is an invalid [Date] selects
    nothing. *)
Theorem getLogs_inclusive_range :
  forall (startDate endDate : option JsDate) (st : State),
    getLogs None None st = logs st /\
    sublist (getLogs startDate endDate st) (logs st) /\
    (forall entry : AuditLogEntry.t,
        List.In entry (getLogs startDate endDate st) <->
        List.In entry (logs st) /\
        (forall s, startDate = Some s ->
                   date_leb s (AuditLogEntry.timestamp entry) = true) /\
        (forall e, endDate = Some e ->
                   date_leb (AuditLogEntry.timestamp entry) e = true)) /\
    getLogs (Some InvalidDate) endDate st = [] /\
    getLogs startDate (Some InvalidDate) st = [].
Proof.
  intros startDate endDate st. unfold getLogs.
  split; [reflexivity|]. split; [|split; [|split]].
  - destruct startDate, endDate; cbn zeta;
      repeat (etransitivity; [apply PolicyValidatorMore.filter_sublist|]);
      reflexivity.
  - intros entry. destruct startDate as [s|], endDate as [e|]; cbn zeta;
      rewrite ?List.filter_In; split.
    + intros [[Hin Hs] He]. split; [exact Hin|].
      split; intros ? [= <-]; assumption.
    + intros (Hin & Hs & He). auto.
    + intros [Hin Hs]. split; [exact Hin|].
      split; [intros ? [= <-]; assumption | discriminate].
    + intros (Hin & Hs & _). auto.
    + intros [Hin He]. split; [exact Hin|].
      split; [discriminate | intros ? [= <-]; assumption].
    + intros (Hin & _ & He). auto.
    + intros Hin. split; [exact Hin|]. split; discriminate.
    + intros (Hin & _). exact Hin.
  - cbn zeta.
    assert (Hnone : List.filter
                      (fun log => date_leb InvalidDate (AuditLogEntry.timestamp log))
                      (logs st) = []).
    { induction (logs st) as [|x l IH]; [reflexivity | exact IH]. }
    rewrite Hnone. destruct endDate; reflexivity.
  - cbn zeta.
    assert (Hnone : forall l : list AuditLogEntry.t,
               List.filter
                 (fun log => date_leb (AuditLogEntry.timestamp log) InvalidDate) l
               = []).
    { induction l as [|x l IH]; [reflexivity|]. simpl.
      destruct (AuditLogEntry.timestamp x); exact IH. }
    apply Hnone.
Qed.

(** X12. [getActionCounts] reports, for each of the four actions, the
    number of stored entries with that action (zero when there is
    none), and the four counts add up to the size of the log. *)
Theorem getActionCounts_counts :
  forall st : State,
    ActionCounts.validate (getActionCounts st) = count_action Validate (logs st) /\
    ActionCounts.create (getActionCounts st) = count_action Create (logs st) /\
    ActionCounts.update (getActionCounts st) = count_action Update (logs st) /\
    ActionCounts.delete (getActionCounts st) = count_action Delete (logs st) /\
    (ActionCounts.validate (getActionCounts st)
     + ActionCounts.create (getActionCounts st)
     + ActionCounts.update (getActionCounts st)
     + ActionCounts.delete (getActionCounts st)
     = Z.of_nat (List.length (logs st)))%Z.
Proof.
  intros st. unfold getActionCounts.
  destruct (fold_increment (logs st)
              {| ActionCounts.validate := 0; ActionCounts.create := 0;
                 ActionCounts.update := 0; ActionCounts.delete := 0 |})
    as (Hv & Hc & Hu & Hd).
  cbn zeta in Hv, Hc, Hu, Hd. cbn in Hv, Hc, Hu, Hd.
  rewrite Hv, Hc, Hu, Hd. repeat split. apply action_partition.
Qed.

Section WithHost.

Variable host : Host.


End WithHost.


Lemma getLogs_inclusive_range_witness :
  getLogs (Some (ValidDate 1700000000002)) None
    (snd (log_all Samples.host Samples.five_calls (initial 3)))
  <> [].
Proof.
  intros Hempty.
  pose proof (proj2 (proj1 (proj2 (proj2 (getLogs_inclusive_range
                (Some (ValidDate 1700000000002)) None
                (snd (log_all Samples.host Samples.five_calls (initial 3))))))
              (AuditLogger.entry_at Samples.host
                 {| clock_reads := 8; random_draws := 4; logs := [];
                    maxLogSize := 3; policies := ∅ |}
                 (Samples.create_call "p5")))) as Hin.
  rewrite Hempty in Hin. apply Hin. split.
  - vm_compute. right. right. left. reflexivity.
  - split; [intros s [= <-]; vm_compute; reflexivity | discriminate].
Defined.

End AuditLoggerMore.

(* ================================================================== *)
(** * PolicyParser: acceptance, defaults and error messages *)
(* ================================================================== *)

Module PolicyParserMore.
Import PolicyParser.

Lemma get_property_object (v : Value) (key : string) :
  is_object v = true -> get_property v key = Ok (property v key).
Proof.
  unfold is_object. intros H. apply andb_true_iff in H as [Hobj Hnull].
  apply negb_true_iff in Hnull.
  destruct (get_property_object_type v key Hobj Hnull) as [r Hr].
  unfold property. now rewrite Hr.
Qed.

Lemma isValidPolicyInput_eq (input : Value) :
  isValidPolicyInput input = Ok (policy_shape input).
Proof.
  unfold isValidPolicyInput, policy_shape.
  destruct (is_object input) eqn:Hobj.
  - pose proof Hobj as Hobj'. unfold is_object in Hobj'.
    apply andb_true_iff in Hobj' as [-> Hnull].
    apply negb_true_iff in Hnull. rewrite Hnull. cbn [negb orb].
    rewrite !get_property_object by exact Hobj. cbn [obind andb].
    destruct (is_string (property input "id")); cbn [negb andb]; [|reflexivity].
    destruct (is_string (property input "name")); reflexivity.
  - unfold is_object in Hobj. apply andb_false_iff in Hobj as [->| Hnull].
    + reflexivity.
    + apply negb_false_iff in Hnull. rewrite Hnull, orb_true_r. reflexivity.
Qed.

Section MapO.

Context {A B : Type}.

Lemma mapO_ok (f : A -> Outcome B) (l : list A) :
  (forall x, List.In x l -> exists y, f x = Ok y) ->
  exists ys, mapO f l = Ok ys /\ List.length ys = List.length l.
Proof.
  induction l as [|x l IH]; intros Hall; simpl; [eauto|].
  destruct (Hall x (or_introl eq_refl)) as [y ->].
  destruct IH as (ys & -> & Hlen); [intros; apply Hall; now right|].
  simpl. eexists. split; [reflexivity|]. simpl. now rewrite Hlen.
Qed.

Lemma mapiO_ok (f : A -> nat -> Outcome B) (l : list A) :
  (forall x i, List.In x l -> exists y, f x i = Ok y) ->
  forall index, exists ys,
    mapiO f index l = Ok ys /\ List.length ys = List.length l.
Proof.
  induction l as [|x l IH]; intros Hall index; simpl; [eauto|].
  destruct (Hall x index (or_introl eq_refl)) as [y ->].
  destruct (IH (fun z i Hz => Hall z i (or_intror Hz)) (S index))
    as (ys & -> & Hlen).
  simpl. eexists. split; [reflexivity|]. simpl. now rewrite Hlen.
Qed.

Lemma mapiO_ok_inv (f : A -> nat -> Outcome B) (l : list A) :
  forall index ys,
    mapiO f index l = Ok ys ->
    forall x, List.In x l -> exists i y, f x i = Ok y.
Proof.
  induction l as [|x l IH]; intros index ys Hrun z Hin; [destruct Hin|].
  simpl in Hrun. destruct (f x index) as [y|e] eqn:Hx; [|discriminate].
  simpl in Hrun. destruct (mapiO f (S index) l) as [ys'|e] eqn:Hrest; [|discriminate].
  destruct Hin as [<-|Hin]; [eauto | eapply IH; eauto].
Qed.


End MapO.

Section WithHost.

Variable host : Host.

Lemma parseCondition_object (item : Value) :
  is_object item = true ->
  exists condition : RuleCondition.t,
    parseCondition host item = Ok condition /\
    RuleCondition.value condition = property item "value" /\
    RuleCondition.field condition
    = js_String host (nullish (property item "field") (JStr EmptyString)) /\
    (forall op : Operator,
        property item "operator" = JStr (operator_name op) ->
        RuleCondition.operator condition = op) /\
    ((forall op : Operator, property item "operator" <> JStr (operator_name op)) ->
     RuleCondition.operator condition = Equals).
Proof.
  intros Hobj. unfold parseCondition.
  rewrite !get_property_object by exact Hobj. cbn [obind].
  eexists. split; [reflexivity|]. cbn. repeat split.
  - intros op ->. destruct op; reflexivity.
  - intros Hnone. destruct (property item "operator") as [| | | |s| | | |]; auto.
    unfold operator_of_string.
    repeat match goal with
           | |- context [String.eqb s ?name] =>
               destruct (String.eqb_spec s name) as [->|?]
           end; auto.
    all: exfalso.
    + now apply (Hnone NotEquals).
    + now apply (Hnone Contains).
    + now apply (Hnone NotContains).
    + now apply (Hnone GreaterThan).
    + now apply (Hnone LessThan).
    + now apply (Hnone Matches).
Qed.

Lemma parseConditions_run :
  forall input : Value,
  exists conditions : list RuleCondition.t,
    parseConditions host input = Ok conditions /\
    List.Forall2
      (fun item condition =>
         RuleCondition.value condition = property item "value" /\
         (forall op : Operator,
             property item "operator" = JStr (operator_name op) ->
             RuleCondition.operator condition = op) /\
         ((forall op : Operator, property item "operator" <> JStr (operator_name op)) ->
          RuleCondition.operator condition = Equals))
      (List.filter is_object (items_of input)) conditions /\
    (isArray input = false -> conditions = []).
Proof.
  intros input.
  assert (Hitems : forall items : list Value,
             exists conditions,
               mapO (parseCondition host) (List.filter is_object items) = Ok conditions /\
               List.Forall2
                 (fun item condition =>
                    RuleCondition.value condition = property item "value" /\
                    (forall op : Operator,
                        property item "operator" = JStr (operator_name op) ->
                        RuleCondition.operator condition = op) /\
                    ((forall op : Operator,
                         property item "operator" <> JStr (operator_name op)) ->
                     RuleCondition.operator condition = Equals))
                 (List.filter is_object items) conditions).
  { induction items as [|item items IH]; simpl; [eauto|].
    destruct (is_object item) eqn:Hobj; [|exact IH].
    destruct IH as (conditions & Hrun & Hall).
    destruct (parseCondition_object item Hobj) as (c & Hc & Hv & _ & Hop & Hdef).
    simpl. rewrite Hc, Hrun. simpl. eexists. split; [reflexivity|].
    constructor; auto. }
  destruct input; simpl; try (exists []; repeat split; auto; constructor).
  destruct (Hitems elems) as (conditions & Hrun & Hall).
  exists conditions. split; [exact Hrun|]. split; [exact Hall | discriminate].
Qed.


Lemma rule_shape_object (input : Value) :
  rule_shape input = true ->
  is_object input = true /\
  property input "id" = JStr (string_of (property input "id")) /\
  property input "name" = JStr (string_of (property input "name")).
Proof.
  unfold rule_shape. intros H.
  apply andb_true_iff in H as [H Hname]. apply andb_true_iff in H as [Hobj Hid].
  split; [exact Hobj|].
  destruct (property input "id"); try discriminate.
  destruct (property input "name"); try discriminate. auto.
Qed.

(** [parseRule] on an item of rule shape, in closed form. *)
Lemma parseRule_shaped (input : Value) (index : nat) :
  rule_shape input = true ->
  exists conditions : list RuleCondition.t,
    parseConditions host (property input "conditions") = Ok conditions /\
    parseRule host input index
    = Ok {| ComplianceRule.id := string_of (property input "id");
            ComplianceRule.name := string_of (property input "name");
            ComplianceRule.description :=
              js_String host (nullish (property input "description") (JStr EmptyString));
            ComplianceRule.severity := parseSeverity (property input "severity");
            ComplianceRule.category :=
              js_String host (nullish (property input "category") (JStr "general"));
            ComplianceRule.enabled :=
              negb (strict_equals (property input "enabled") (JBool false));
            ComplianceRule.conditions := conditions |}.
Proof.
  intros Hshape. destruct (rule_shape_object input Hshape) as (Hobj & Hid & Hname).
  destruct (parseConditions_run (property input "conditions"))
    as (conditions & Hconds & _).
  exists conditions. split; [exact Hconds|]. unfold parseRule.
  pose proof Hobj as Hobj'. unfold is_object in Hobj'.
  apply andb_true_iff in Hobj' as [-> Hnull]. apply negb_true_iff in Hnull.
  rewrite Hnull. cbn [negb orb].
  rewrite !get_property_object by exact Hobj. cbn [obind].
  rewrite Hid, Hname. rewrite Hconds. reflexivity.
Qed.

(** [parseRule] on any other item throws, naming the index. *)
Lemma parseRule_misshaped (input : Value) (index : nat) :
  rule_shape input = false ->
  exists suffix : string,
    parseRule host input index
    = Throw (Error ("Invalid rule at index " +:+ string_of_nat index +:+ suffix)).
Proof.
  intros Hshape. unfold parseRule.
  destruct (is_object input) eqn:Hobj.
  - pose proof Hobj as Hobj'. unfold is_object in Hobj'.
    apply andb_true_iff in Hobj' as [-> Hnull]. apply negb_true_iff in Hnull.
    rewrite Hnull. cbn [negb orb].
    rewrite !get_property_object by exact Hobj. cbn [obind].
    unfold rule_shape in Hshape. rewrite Hobj in Hshape. cbn [andb] in Hshape.
    destruct (property input "id"); try (eexists; reflexivity).
    destruct (property input "name"); try (eexists; reflexivity).
    discriminate.
  - unfold is_object in Hobj. apply andb_false_iff in Hobj as [->|Hnull].
    + cbn [negb orb]. eexists. reflexivity.
    + apply negb_false_iff in Hnull. rewrite Hnull, orb_true_r.
      eexists. reflexivity.
Qed.





End WithHost.



Section Policies.

Variable host : Host.

Lemma rule_shape_iff (input : Value) (index : nat) :
  (exists rule, parseRule host input index = Ok rule) <-> rule_shape input = true.
Proof.
  split.
  - intros [rule Hrun]. destruct (rule_shape input) eqn:Hshape; [reflexivity|].
    destruct (parseRule_misshaped host input index Hshape) as [suffix Hthrow].
    congruence.
  - intros Hshape.
    destruct (parseRule_shaped host input index Hshape) as (conditions & _ & Hrun).
    eauto.
Qed.

(** [parseRules] on an array whose items all have rule shape. *)
Lemma parseRules_shaped (items : list Value) :
  List.forallb rule_shape items = true ->
  forall index : nat,
  exists rules : list ComplianceRule.t,
    mapiO (parseRule host) index items = Ok rules /\
    List.map ComplianceRule.id rules
    = List.map (fun item => string_of (property item "id")) items.
Proof.
  induction items as [|item items IH]; intros Hall index; simpl; [eauto|].
  simpl in Hall. apply andb_true_iff in Hall as [Hitem Hall].
  destruct (parseRule_shaped host item index Hitem) as (conditions & _ & ->).
  destruct (IH Hall (S index)) as (rules & -> & Hids).
  simpl. eexists. split; [reflexivity|]. simpl. now rewrite Hids.
Qed.


Lemma policy_shape_object (input : Value) :
  policy_shape input = true ->
  is_object input = true /\
  property input "id" = JStr (string_of (property input "id")) /\
  property input "name" = JStr (string_of (property input "name")) /\
  exists addr, property input "rules" = JArray addr (items_of (property input "rules")).
Proof.
  unfold policy_shape. intros H.
  apply andb_true_iff in H as [H Hrules]. apply andb_true_iff in H as [H Hname].
  apply andb_true_iff in H as [Hobj Hid].
  split; [exact Hobj|].
  destruct (property input "id"); try discriminate.
  destruct (property input "name"); try discriminate.
  destruct (property input "rules"); try discriminate. simpl. eauto.
Qed.

(** [parsePolicy] on an input of policy shape, in closed form: the
    rules are parsed first; the clock is read once for each date the
    input does not supply. *)
Lemma parsePolicy_shaped (input : Value) (st : State) :
  policy_shape input = true ->
  parsePolicy host input st
  = match parseRules host (property input "rules") with
    | Ok rules =>
        (Ok {| CompliancePolicy.id := string_of (property input "id");
               CompliancePolicy.name := string_of (property input "name");
               CompliancePolicy.version :=
                 js_String host (nullish (property input "version") (JStr "1.0.0"));
               CompliancePolicy.description :=
                 js_String host
                   (nullish (property input "description") (JStr EmptyString));
               CompliancePolicy.rules := rules;
               CompliancePolicy.createdAt :=
                 date_at (clock host) (parseDate host (property input "createdAt"))
                         (clock_reads st);
               CompliancePolicy.updatedAt :=
                 date_at (clock host) (parseDate host (property input "updatedAt"))
                         (clock_reads st
                          + reads_for (parseDate host (property input "createdAt"))) |},
         with_clock_reads
           (clock_reads st
            + reads_for (parseDate host (property input "createdAt"))
            + reads_for (parseDate host (property input "updatedAt"))) st)
    | Throw e => (Throw e, st)
    end.
Proof.
  intros Hshape.
  destruct (policy_shape_object input Hshape) as (Hobj & Hid & Hname & _).
  unfold parsePolicy, bindM, lift, throw, pure.
  rewrite isValidPolicyInput_eq, Hshape. cbn [negb].
  rewrite !get_property_object by exact Hobj.
  destruct (parseRules host (property input "rules")) as [rules|e]; [|reflexivity].
  rewrite Hid, Hname. cbn [js_String].
  destruct st as [reads draws entries capacity registry].
  unfold date_or_now, new_Date, pure, with_clock_reads.
  destruct (parseDate host (property input "createdAt")),
           (parseDate host (property input "updatedAt"));
    cbn [date_at reads_for clock_reads random_draws logs maxLogSize policies];
    repeat f_equal; lia.
Qed.

Lemma parsePolicy_misshaped (input : Value) (st : State) :
  policy_shape input = false ->
  parsePolicy host input st
  = (Throw (Error "Invalid policy format: missing required fields"), st).
Proof.
  intros Hshape. unfold parsePolicy, bindM, lift, throw.
  now rewrite isValidPolicyInput_eq, Hshape.
Qed.

Lemma parseRules_accepted (input : Value) :
  accepts input = true ->
  exists rules : list ComplianceRule.t,
    parseRules host (property input "rules") = Ok rules /\
    List.map ComplianceRule.id rules
    = List.map (fun item => string_of (property item "id"))
               (items_of (property input "rules")).
Proof.
  unfold accepts. intros H. apply andb_true_iff in H as [Hshape Hrules].
  destruct (policy_shape_object input Hshape) as (_ & _ & _ & addr & Harr).
  rewrite Harr. unfold parseRules. cbn [items_of].
  now apply parseRules_shaped.
Qed.

Lemma parseRules_rejected (input : Value) :
  policy_shape input = true -> accepts input = false ->
  exists e : JsError, parseRules host (property input "rules") = Throw e.
Proof.
  intros Hshape Hrej. unfold accepts in Hrej. rewrite Hshape in Hrej.
  cbn [andb] in Hrej.
  destruct (policy_shape_object input Hshape) as (_ & _ & _ & addr & Harr).
  destruct (parseRules host (property input "rules")) as [rules|e] eqn:Hrun; [|eauto].
  exfalso. rewrite Harr in Hrun. unfold parseRules in Hrun.
  assert (Hall : List.forallb rule_shape (items_of (property input "rules")) = true).
  { apply List.forallb_forall. intros item Hin.
    destruct (mapiO_ok_inv _ _ _ _ Hrun item Hin) as (i & rule & Hitem).
    apply (rule_shape_iff item i). eauto. }
  congruence.
Qed.

(** What [parsePolicy] does with an input it does not accept: it throws
    and leaves the state as it was. *)
Lemma parsePolicy_rejected (input : Value) (st : State) :
  accepts input = false ->
  exists e : JsError, parsePolicy host input st = (Throw e, st).
Proof.
  intros Hrej. destruct (policy_shape input) eqn:Hshape.
  - destruct (parseRules_rejected input Hshape Hrej) as [e He].
    exists e. now rewrite (parsePolicy_shaped input st Hshape), He.
  - eexists. now apply parsePolicy_misshaped.
Qed.









End Policies.






End PolicyParserMore.

(* ================================================================== *)
(** * ComplianceService: the registry and its audit trail *)
(* ================================================================== *)

Module ComplianceServiceMore.
Import ComplianceService.

Lemma trimmed_fits {A} (maxLogSize : Z) (l : list A) :
  (1 <= maxLogSize)%Z ->
  (Z.of_nat (List.length (AuditLogger.trimmed maxLogSize l)) <= maxLogSize)%Z.
Proof.
  intros Hpos. rewrite AuditLoggerFacts.trimmed_positive by exact Hpos.
  rewrite AuditLoggerFacts.lastn_length. lia.
Qed.


Section WithHost.

Variable host : Host.

(** One call of [log] from a method of the service. *)
Lemma log_call (action : Action) (resourceType : ResourceType)
    (resourceId userId : string) (details : list (string * Value)) (st : State) :
  exists (entry : AuditLogEntry.t) (st' : State),
    AuditLogger.log host action resourceType resourceId userId details st
    = (Ok entry, st') /\
    policies st' = policies st /\
    maxLogSize st' = maxLogSize st /\
    logs st' = AuditLogger.trimmed (maxLogSize st) (logs st ++ [entry]) /\
    AuditLogEntry.action entry = action /\
    AuditLogEntry.resourceType entry = resourceType /\
    AuditLogEntry.resourceId entry = resourceId /\
    AuditLogEntry.userId entry = userId /\
    AuditLogEntry.details entry = details.
Proof.
  pose proof (AuditLoggerFacts.log_eq host
                {| AuditLogger.call_action := action;
                   AuditLogger.call_resourceType := resourceType;
                   AuditLogger.call_resourceId := resourceId;
                   AuditLogger.call_userId := userId;
                   AuditLogger.call_details := details |} st) as Hlog.
  cbn [AuditLogger.call_action AuditLogger.call_resourceType
       AuditLogger.call_resourceId AuditLogger.call_userId
       AuditLogger.call_details] in Hlog.
  eexists _, _. split; [exact Hlog|]. cbn. repeat split.
Qed.

(** Peel the call of [log] that ends a method. *)
Ltac run_log entry st' Hpol Hcap Hlogs Hentry :=
  unfold bindM;
  match goal with
  | |- context [AuditLogger.log host ?a ?r ?i ?u ?d ?s] =>
      destruct (log_call a r i u d s) as (entry & st' & -> & Hpol & Hcap & Hlogs & Hentry)
  end.

(** An accepted input parses, and parsing touches the clock only. *)
Lemma parse_accepted (input : Value) (st : State) :
  PolicyParser.accepts input = true ->
  exists (policy : CompliancePolicy.t) (st1 : State),
    PolicyParser.parsePolicy host input st = (Ok policy, st1) /\
    CompliancePolicy.id policy = PolicyParser.string_of (property input "id") /\
    CompliancePolicy.name policy = PolicyParser.string_of (property input "name") /\
    policies st1 = policies st /\ logs st1 = logs st /\
    maxLogSize st1 = maxLogSize st.
Proof.
  intros Hacc.
  destruct (PolicyParserMore.parseRules_accepted host input Hacc) as (rules & Hrules & _).
  unfold PolicyParser.accepts in Hacc. apply andb_true_iff in Hacc as [Hshape _].
  rewrite (PolicyParserMore.parsePolicy_shaped host input st Hshape), Hrules.
  eexists _, _. split; [reflexivity|]. repeat split.
Qed.

(** [registerPolicy] of an accepted input under a free id. *)
Lemma registerPolicy_run (policyInput : Value) (userId : string) (st : State) :
  PolicyParser.accepts policyInput = true ->
  policies st !! PolicyParser.string_of (property policyInput "id") = None ->
  exists (policy : CompliancePolicy.t) (st' : State) (entry : AuditLogEntry.t),
    registerPolicy host policyInput userId st = (Ok policy, st') /\
    CompliancePolicy.id policy = PolicyParser.string_of (property policyInput "id") /\
    policies st' = <[CompliancePolicy.id policy := policy]> (policies st) /\
    maxLogSize st' = maxLogSize st /\
    logs st' = AuditLogger.trimmed (maxLogSize st) (logs st ++ [entry]) /\
    AuditLogEntry.action entry = Create /\
    AuditLogEntry.resourceType entry = Policy /\
    AuditLogEntry.resourceId entry = CompliancePolicy.id policy /\
    AuditLogEntry.userId entry = userId /\
    AuditLogEntry.details entry = policy_details policy.
Proof.
  intros Hacc Hfree.
  destruct (parse_accepted policyInput st Hacc)
    as (policy & st1 & Hparse & Hid & _ & Hpol1 & Hlogs1 & Hcap1).
  unfold registerPolicy, bindM at 1. rewrite Hparse.
  unfold bindM at 1, get_state.
  assert (Hhas : has (CompliancePolicy.id policy) st1 = false).
  { apply ComplianceServiceFacts.has_false. now rewrite Hpol1, Hid. }
  rewrite Hhas. unfold bindM at 1, modify.
  run_log entry st' Hpol Hcap Hlogs Hentry.
  destruct Hentry as (Ha & Hr & Hi & Hu & Hd).
  exists policy, st', entry. unfold pure. split; [reflexivity|].
  rewrite Hpol, Hcap, Hlogs. cbn [policies maxLogSize logs with_policies].
  rewrite Hpol1, Hlogs1, Hcap1. repeat split; auto.
Qed.

(** A rejected input makes [registerPolicy] and [updatePolicy] throw
    what [parsePolicy] throws, in the state they started from. *)
Lemma rejected_input_run (policyId : string) (policyInput : Value)
    (userId : string) (st : State) :
  PolicyParser.accepts policyInput = false ->
  exists e : JsError,
    PolicyParser.parsePolicy host policyInput st = (Throw e, st) /\
    registerPolicy host policyInput userId st = (Throw e, st) /\
    (is_Some (policies st !! policyId) ->
     updatePolicy host policyId policyInput userId st = (Throw e, st)).
Proof.
  intros Hrej.
  destruct (PolicyParserMore.parsePolicy_rejected host policyInput st Hrej) as [e He].
  exists e. split; [exact He|]. split.
  - unfold registerPolicy, bindM. now rewrite He.
  - intros Hsome. apply ComplianceServiceFacts.has_true in Hsome.
    unfold updatePolicy, bindM, get_state. rewrite Hsome. cbn [negb].
    now rewrite He.
Qed.

(** [updatePolicy] of an accepted input on a registered id. *)
Lemma updatePolicy_run (policyId : string) (policyInput : Value)
    (userId : string) (st : State) :
  is_Some (policies st !! policyId) ->
  PolicyParser.accepts policyInput = true ->
  exists (policy : CompliancePolicy.t) (st' : State) (entry : AuditLogEntry.t),
    updatePolicy host policyId policyInput userId st = (Ok policy, st') /\
    CompliancePolicy.id policy = policyId /\
    CompliancePolicy.name policy
    = PolicyParser.string_of (property policyInput "name") /\
    policies st' = <[policyId := policy]> (policies st) /\
    maxLogSize st' = maxLogSize st /\
    logs st' = AuditLogger.trimmed (maxLogSize st) (logs st ++ [entry]) /\
    AuditLogEntry.action entry = Update /\
    AuditLogEntry.resourceType entry = Policy /\
    AuditLogEntry.resourceId entry = policyId /\
    AuditLogEntry.userId entry = userId /\
    AuditLogEntry.details entry = policy_details policy.
Proof.
  intros Hsome Hacc. apply ComplianceServiceFacts.has_true in Hsome.
  destruct (parse_accepted policyInput st Hacc)
    as (parsed & st1 & Hparse & _ & Hname & Hpol1 & Hlogs1 & Hcap1).
  unfold updatePolicy, bindM at 1, get_state. rewrite Hsome. cbn [negb].
  unfold bindM at 1. rewrite Hparse.
  unfold bindM at 1, new_Date. unfold bindM at 1, modify.
  run_log entry st' Hpol Hcap Hlogs Hentry.
  destruct Hentry as (Ha & Hr & Hi & Hu & Hd).
  eexists _, st', entry. unfold pure. split; [reflexivity|].
  rewrite Hpol, Hcap, Hlogs.
  cbn [policies maxLogSize logs with_policies with_clock_reads].
  rewrite Hpol1, Hlogs1, Hcap1. repeat split; auto.
Qed.

(** [deletePolicy] of a registered id. *)
Lemma deletePolicy_run (policyId userId : string) (st : State) :
  is_Some (policies st !! policyId) ->
  exists (st' : State) (entry : AuditLogEntry.t),
    deletePolicy host policyId userId st = (Ok true, st') /\
    policies st' = delete policyId (policies st) /\
    maxLogSize st' = maxLogSize st /\
    logs st' = AuditLogger.trimmed (maxLogSize st) (logs st ++ [entry]) /\
    AuditLogEntry.action entry = Delete /\
    AuditLogEntry.resourceType entry = Policy /\
    AuditLogEntry.resourceId entry = policyId /\
    AuditLogEntry.userId entry = userId /\
    AuditLogEntry.details entry = [].
Proof.
  intros Hsome. apply ComplianceServiceFacts.has_true in Hsome.
  unfold deletePolicy, bindM at 1, get_state. rewrite Hsome. cbn [negb].
  unfold bindM at 1, modify.
  run_log entry st' Hpol Hcap Hlogs Hentry.
  destruct Hentry as (Ha & Hr & Hi & Hu & Hd).
  exists st', entry. unfold pure. split; [reflexivity|].
  rewrite Hpol, Hcap, Hlogs. cbn [policies maxLogSize logs with_policies].
  repeat split; auto.
Qed.

(** [validate] of a registered id. *)
Lemma validate_run (policyId : string) (data : Value) (userId : string)
    (st : State) (policy : CompliancePolicy.t) :
  policies st !! policyId = Some policy ->
  exists (report : ComplianceReport.t) (st' : State) (entry : AuditLogEntry.t),
    validate host policyId data userId st = (Ok report, st') /\
    fst (PolicyValidator.validatePolicy host policy data st) = Ok report /\
    policies st' = policies st /\
    maxLogSize st' = maxLogSize st /\
    logs st' = AuditLogger.trimmed (maxLogSize st) (logs st ++ [entry]) /\
    AuditLogEntry.action entry = Validate /\
    AuditLogEntry.resourceType entry = Policy /\
    AuditLogEntry.resourceId entry = policyId /\
    AuditLogEntry.userId entry = userId /\
    List.map fst (AuditLogEntry.details entry)
    = ["passed"; "totalRules"; "failedRules"] /\
    own_property (AuditLogEntry.details entry) "passed"
    = JBool (PolicyValidator.isPolicyPassing report).
Proof.
  intros Hget.
  unfold validate, bindM at 1, get_state, getPolicy. rewrite Hget.
  unfold bindM at 1. rewrite PolicyValidatorMore.validatePolicy_eq.
  run_log entry st' Hpol Hcap Hlogs Hentry.
  destruct Hentry as (Ha & Hr & Hi & Hu & Hd).
  eexists _, st', entry. unfold pure. split; [reflexivity|].
  rewrite Hpol, Hcap, Hlogs, Hd.
  cbn [policies maxLogSize logs with_clock_reads fst].
  repeat split; auto.
Qed.

Lemma validate_absent (policyId : string) (data : Value) (userId : string)
    (st : State) :
  policies st !! policyId = None ->
  validate host policyId data userId st
  = (Throw (Error ("Policy with ID " +:+ dq +:+ policyId +:+ dq +:+ " not found")),
     st).
Proof.
  intros Hget. unfold validate, bindM, get_state, getPolicy. now rewrite Hget.
Qed.



(** X22. Deleting a registered id returns [true], removes that id and no
    other, and appends one [delete] entry for that id and user with
    empty details. *)
Theorem deletePolicy_present :
  forall (policyId userId : string) (st : State),
    is_Some (policies st !! policyId) ->
    exists (st' : State) (entry : AuditLogEntry.t),
      deletePolicy host policyId userId st = (Ok true, st') /\
      getPolicy policyId st' = None /\
      (forall other : string,
          other <> policyId -> getPolicy other st' = getPolicy other st) /\
      logs st' = AuditLogger.trimmed (maxLogSize st) (logs st ++ [entry]) /\
      AuditLogEntry.action entry = Delete /\
      AuditLogEntry.resourceType entry = Policy /\
      AuditLogEntry.resourceId entry = policyId /\
      AuditLogEntry.userId entry = userId /\
      AuditLogEntry.details entry = [].
Proof.
  intros policyId userId st Hsome.
  destruct (deletePolicy_run policyId userId st Hsome)
    as (st' & entry & Hrun & Hpol & _ & Hlogs & Hentry).
  exists st', entry. split; [exact Hrun|]. unfold getPolicy. rewrite Hpol.
  split; [apply lookup_delete_eq|].
  split; [intros other Hne; now apply lookup_delete_ne|].
  split; [exact Hlogs | exact Hentry].
Qed.


Lemma updatePolicy_absent_run (policyId : string) (policyInput : Value)
    (userId : string) (st : State) :
  policies st !! policyId = None ->
  exists e : JsError, updatePolicy host policyId policyInput userId st = (Throw e, st).
Proof.
  intros Hnone. apply ComplianceServiceFacts.has_false in Hnone.
  unfold updatePolicy, bindM, get_state. rewrite Hnone. eexists. reflexivity.
Qed.


(** X25. [validate] of an unknown id throws the not-found error and
    changes nothing.  On a registered id it returns the report
    [validatePolicy] computes for the stored policy, leaves the registry
    as it was, and appends one [validate] entry for that id and user
    whose details are [passed], [totalRules] and [failedRules], with
    [passed] the verdict of [isPolicyPassing] on the report. *)
Theorem validate_audited :
  forall (policyId : string) (data : Value) (userId : string) (st : State),
    (policies st !! policyId = None ->
     validate host policyId data userId st
     = (Throw (Error ("Policy with ID " +:+ dq +:+ policyId +:+ dq +:+ " not found")),
        st)) /\
    (forall policy : CompliancePolicy.t,
        policies st !! policyId = Some policy ->
        exists (report : ComplianceReport.t) (st' : State) (entry : AuditLogEntry.t),
          validate host policyId data userId st = (Ok report, st') /\
          fst (PolicyValidator.validatePolicy host policy data st) = Ok report /\
          policies st' = policies st /\
          logs st' = AuditLogger.trimmed (maxLogSize st) (logs st ++ [entry]) /\
          AuditLogEntry.action entry = Validate /\
          AuditLogEntry.resourceType entry = Policy /\
          AuditLogEntry.resourceId entry = policyId /\
          AuditLogEntry.userId entry = userId /\
          List.map fst (AuditLogEntry.details entry)
          = ["passed"; "totalRules"; "failedRules"] /\
          own_property (AuditLogEntry.details entry) "passed"
          = JBool (PolicyValidator.isPolicyPassing report)).
Proof.
  intros policyId data userId st. split; [apply validate_absent|].
  intros policy Hget.
  destruct (validate_run policyId data userId st policy Hget)
    as (report & st' & entry & Hrun & Hreport & Hpol & _ & Hrest).
  exists report, st', entry. auto.
Qed.

Lemma registerPolicy_duplicate_run (policyInput : Value) (userId : string)
    (st : State) :
  PolicyParser.accepts policyInput = true ->
  is_Some (policies st !! PolicyParser.string_of (property policyInput "id")) ->
  exists (e : JsError) (st1 : State),
    registerPolicy host policyInput userId st = (Throw e, st1) /\
    policies st1 = policies st /\ logs st1 = logs st /\
    maxLogSize st1 = maxLogSize st.
Proof.
  intros Hacc Hsome.
  destruct (parse_accepted policyInput st Hacc)
    as (policy & st1 & Hparse & Hid & _ & Hpol1 & Hlogs1 & Hcap1).
  unfold registerPolicy, bindM, get_state. rewrite Hparse.
  assert (Hhas : has (CompliancePolicy.id policy) st1 = true).
  { apply ComplianceServiceFacts.has_true. now rewrite Hpol1, Hid. }
  rewrite Hhas. unfold throw. eauto 6.
Qed.

(** What one call can do to the registry and the log. *)
Lemma perform_cases (call : Call) (st : State) :
  maxLogSize (perform host call st) = maxLogSize st /\
  (logs (perform host call st) = logs st \/
   exists entry : AuditLogEntry.t,
     logs (perform host call st)
     = AuditLogger.trimmed (maxLogSize st) (logs st ++ [entry])) /\
  (policies (perform host call st) = policies st \/
   (exists policy : CompliancePolicy.t,
       policies (perform host call st)
       = <[CompliancePolicy.id policy := policy]> (policies st)) \/
   (exists id : string, policies (perform host call st) = delete id (policies st))).
Proof.
  destruct call as [input userId | policyId input userId | policyId userId
                    | policyId data userId]; cbn [perform].
  - destruct (PolicyParser.accepts input) eqn:Hacc.
    + destruct (policies st !! PolicyParser.string_of (property input "id"))
        as [previous|] eqn:Hget.
      * destruct (registerPolicy_duplicate_run input userId st Hacc)
          as (e & st1 & -> & Hpol & Hlogs & Hcap); [rewrite Hget; eauto|].
        cbn [snd]. auto.
      * destruct (registerPolicy_run input userId st Hacc Hget)
          as (policy & st' & entry & -> & _ & Hpol & Hcap & Hlogs & _).
        cbn [snd]. split; [exact Hcap|]. split; [right; eauto|]. right. left. eauto.
    + destruct (rejected_input_run EmptyString input userId st Hacc)
        as (e & _ & -> & _).
      cbn [snd]. auto.
  - destruct (policies st !! policyId) as [previous|] eqn:Hget.
    + destruct (PolicyParser.accepts input) eqn:Hacc.
      * destruct (updatePolicy_run policyId input userId st) as
            (policy & st' & entry & -> & Hid & _ & Hpol & Hcap & Hlogs & _);
          [rewrite Hget; eauto | exact Hacc|].
        cbn [snd]. split; [exact Hcap|]. split; [right; eauto|]. right. left.
        exists policy. now rewrite Hid.
      * destruct (rejected_input_run policyId input userId st Hacc)
          as (e & _ & _ & Hthrow).
        rewrite Hthrow by (rewrite Hget; eauto). cbn [snd]. auto.
    + destruct (updatePolicy_absent_run policyId input userId st Hget) as [e ->].
      cbn [snd]. auto.
  - destruct (policies st !! policyId) as [previous|] eqn:Hget.
    + destruct (deletePolicy_run policyId userId st)
        as (st' & entry & -> & Hpol & Hcap & Hlogs & _); [rewrite Hget; eauto|].
      cbn [snd]. split; [exact Hcap|]. split; [right; eauto|]. right. right. eauto.
    + unfold deletePolicy, bindM, get_state.
      apply ComplianceServiceFacts.has_false in Hget. rewrite Hget. cbn. auto.
  - destruct (policies st !! policyId) as [policy|] eqn:Hget.
    + destruct (validate_run policyId data userId st policy Hget)
        as (report & st' & entry & -> & _ & Hpol & Hcap & Hlogs & _).
      cbn [snd]. split; [exact Hcap|]. split; [right; eauto|]. left. exact Hpol.
    + rewrite (validate_absent policyId data userId st Hget). cbn [snd]. auto.
Qed.

Lemma perform_all_invariant (calls : list Call) :
  forall st : State,
    (1 <= maxLogSize st)%Z ->
    well_keyed st ->
    (Z.of_nat (List.length (logs st)) <= maxLogSize st)%Z ->
    maxLogSize (perform_all host calls st) = maxLogSize st /\
    well_keyed (perform_all host calls st) /\
    (Z.of_nat (List.length (logs (perform_all host calls st))) <= maxLogSize st)%Z.
Proof.
  induction calls as [|call calls IH]; intros st Hpos Hkeys Hfit; [auto|].
  cbn [perform_all List.fold_left].
  destruct (perform_cases call st) as (Hcap & Hlogs & Hpol).
  destruct (IH (perform host call st)) as (Hcap' & Hkeys' & Hfit').
  - now rewrite Hcap.
  - intros id policy Hget.
    destruct Hpol as [Hpol | [[inserted Hpol] | [removed Hpol]]];
      rewrite Hpol in Hget.
    + now apply Hkeys.
    + apply lookup_insert_Some in Hget as [[<- <-] | [_ Hget]]; [reflexivity|].
      now apply Hkeys.
    + apply lookup_delete_Some in Hget as [_ Hget]. now apply Hkeys.
  - rewrite Hcap. destruct Hlogs as [-> | [entry ->]]; [exact Hfit|].
    now apply trimmed_fits.
  - unfold perform_all in *. rewrite Hcap in *. auto.
Qed.

(** X26. Whatever calls are made on a service created with a capacity of
    at least one, and whatever they return or throw, every stored
    policy sits under its own id and the audit log holds at most
    [maxLogSize] entries. *)
Theorem service_invariant :
  forall (calls : list Call) (capacity : Z),
    (1 <= capacity)%Z ->
    well_keyed (perform_all host calls (initial capacity)) /\
    (Z.of_nat (List.length (logs (perform_all host calls (initial capacity))))
     <= capacity)%Z /\
    maxLogSize (perform_all host calls (initial capacity)) = capacity.
Proof.
  intros calls capacity Hpos.
  destruct (perform_all_invariant calls (initial capacity)) as (Hcap & Hkeys & Hfit).
  - exact Hpos.
  - intros id policy Hget. cbn in Hget. now rewrite lookup_empty in Hget.
  - cbn. lia.
  - auto.
Qed.







End WithHost.




Lemma deletePolicy_present_witness :
  exists st' : State,
    deletePolicy Samples.host "p1" "user-1" Samples.registered = (Ok true, st') /\
    getPolicy "p1" st' = None.
Proof.
  destruct (deletePolicy_present Samples.host "p1" "user-1" Samples.registered
              ltac:(exists Samples.registered_policy; vm_compute; reflexivity))
    as (st' & entry & Hrun & Hgone & _).
  exists st'. split; [exact Hrun | exact Hgone].
Defined.



Lemma validate_audited_witness :
  validate Samples.host "ghost" Samples.admin_record "user-1" Samples.registered
  = (Throw (Error ("Policy with ID " +:+ dq +:+ "ghost" +:+ dq +:+ " not found")),
     Samples.registered) /\
  exists (report : ComplianceReport.t) (st' : State),
    validate Samples.host "p1" Samples.admin_record "user-1" Samples.registered
    = (Ok report, st') /\
    policies st' = policies Samples.registered.
Proof.
  split.
  - apply (proj1 (validate_audited Samples.host "ghost" Samples.admin_record
                    "user-1" Samples.registered)).
    vm_compute. reflexivity.
  - destruct (proj2 (validate_audited Samples.host "p1" Samples.admin_record
                       "user-1" Samples.registered)
                Samples.registered_policy ltac:(vm_compute; reflexivity))
      as (report & st' & entry & Hrun & _ & Hpol & _).
    exists report, st'. split; [exact Hrun | exact Hpol].
Defined.

Lemma service_invariant_witness :
  well_keyed (perform_all Samples.host Samples.session (initial 3)) /\
  (Z.of_nat (List.length (logs (perform_all Samples.host Samples.session (initial 3))))
   <= 3)%Z.
Proof.
  destruct (service_invariant Samples.host Samples.session 3 ltac:(lia))
    as (Hkeys & Hfit & _).
  split; [exact Hkeys | exact Hfit].
Defined.




End ComplianceServiceMore.
